(** * WindowsFilePicker: [select_items] of file_picker.py

    A shallow embedding of the one function of the repository and the
    properties of its specification.

    The function is a thin wrapper around foreign calls.  What the operating
    system answers is not decided by the code, so the answers of the foreign
    functions are taken from an oracle [OS]; what the code does with them
    (the order of the calls, how the buffer is parsed, which exception is
    raised) is modelled as written.  Every step that reaches the operating
    system is recorded, in order, in a log: loading a library
    ([ctypes.windll.shell32]), looking up an entry point
    ([shell32.SHBrowseForFolderW]), calling a foreign function, printing a
    line.  The trace of a call is the calls and the printed lines of its
    log. *)

From Stdlib Require Import ZArith NArith List String Ascii Bool Lia DecimalString.
Import ListNotations.

Local Open Scope string_scope.
Local Open Scope list_scope.
Local Open Scope Z_scope.

(** ** Text *)

(** A wide character is a code unit; a Python [str] and the content of a
    [c_wchar] array are sequences of them. *)
Definition wchar := N.
Definition wstr := list wchar.

Definition NUL : wchar := 0%N.

(** A literal of the source that has only ASCII characters. *)
Definition str (s : string) : wstr := map N_of_ascii (list_ascii_of_string s).

(** [str(n)] for a Python int. *)
Definition str_of_int (n : Z) : string := NilZero.string_of_int (Z.to_int n).

(** [s.split(sep)] for a separator of one character: every occurrence
    splits, so empty pieces are kept and the result is never empty. *)
Fixpoint split (sep : wchar) (s : wstr) : list wstr :=
  match s with
  | [] => [[]]
  | c :: s' =>
      if (c =? sep)%N then [] :: split sep s'
      else match split sep s' with
           | t :: ts => (c :: t) :: ts
           | [] => [[c]]
           end
  end.

(** Truth value of a [str]: [if item] keeps the non-empty ones. *)
Definition truthy (s : wstr) : bool :=
  match s with [] => false | _ :: _ => true end.

(** ** Exceptions and results *)

Inductive exn : Type :=
| ValueError (msg : string)
| IndexError (msg : string)
| OverflowError (msg : string)
| MemoryError.

Inductive outcome (A : Type) : Type :=
| Return (a : A)
| Raise (e : exn).
Arguments Return {A} a.
Arguments Raise {A} e.

(** ** The structures handed to the dialogs

    Only the fields the code assigns are kept; the others keep the zero a
    fresh ctypes structure has.  [None] in a pointer or handle field is the
    null pointer, 0.  The field that points to the text buffer
    ([pszDisplayName], [lpstrFile]) is the buffer itself, which the calls
    below receive next to the structure. *)

Record BROWSEINFO : Type := mkBROWSEINFO {
  bi_hwndOwner : Z;
  bi_pidlRoot : Z;
  bi_lpszTitle : wstr;
  bi_ulFlags : Z;
  bi_lpfn : Z;
  bi_lParam : Z
}.

Record OPENFILENAME : Type := mkOPENFILENAME {
  lStructSize : Z;
  hwndOwner : Z;
  lpstrFilter : wstr;
  nMaxFile : Z;
  lpstrTitle : option wstr;
  Flags : Z
}.

(** A value stored in a [DWORD] or [UINT] field is reduced modulo 2^32. *)
Definition DWORD (x : Z) : Z := x mod 2 ^ 32.

(** A foreign function without [restype] returns a C [int]: the signed
    reading of the low 32 bits. *)
Definition c_int (x : Z) : Z := (x + 2 ^ 31) mod 2 ^ 32 - 2 ^ 31.

Definition FOS_PICKFOLDERS : Z := 0x00000020.
Definition OFN_ALLOWMULTISELECT : Z := 0x00000200.
Definition OFN_EXPLORER : Z := 0x00080000.
Definition OFN_FILEMUSTEXIST : Z := 0x00000008.

(** The titles and the filter, as code points. *)
Definition title_folder : wstr := [36984; 25799; 36039; 26009; 22846]%N.
Definition title_file : wstr := [36984; 25799; 27284; 26696]%N.
Definition title_multi : wstr :=
  [36984; 25799; 27284; 26696; 40; 21487; 35079; 36984; 41]%N.
Definition filter_text : wstr :=
  [25152; 26377; 27284; 26696; 0; 42; 46; 42; 0;
   67; 83; 86; 32; 27284; 26696; 0; 42; 46; 99; 115; 118; 0;
   25991; 23383; 27284; 26696; 0; 42; 46; 116; 120; 116; 0; 0]%N.

(** ** The operating system *)

(** What the foreign functions answer.  A function that receives the buffer
    answers with its return value and with the content the buffer has
    afterwards.  [pidl] results are addresses, 0 for the null pointer (which
    a [c_void_p] result turns into [None]). *)
Record OS : Type := mkOS {
  sizeof_OPENFILENAME : Z;
  os_SHBrowseForFolderW : BROWSEINFO -> wstr -> Z * wstr;
  os_SHGetPathFromIDListW : Z -> wstr -> Z * wstr;
  os_GetOpenFileNameW : OPENFILENAME -> wstr -> Z * wstr;
  os_CommDlgExtendedError : Z
}.

(** What a call leaves observable. *)
Inductive event : Type :=
| call_CoInitialize
| call_SHBrowseForFolderW (bi : BROWSEINFO)
| call_SHGetPathFromIDListW (pidl : Z)
| call_CoTaskMemFree (pidl : Z)
| call_CoUninitialize
| call_GetOpenFileNameW (ofn : OPENFILENAME)
| call_CommDlgExtendedError
| print (msg : string).

Definition trace := list event.

(** A step of a call that reaches the operating system.  [ctypes.windll.x]
    loads the library [x] and [x.f] looks the entry point [f] up in it, the
    first time the process evaluates them; ctypes keeps both afterwards.
    The log is the one of a process that has bound nothing yet. *)
Inductive step : Type :=
| did (e : event)
| load_library (dll : string)
| get_entry (dll name : string).

Definition log := list step.

(** The calls and the printed lines of a log. *)
Fixpoint events_of (l : log) : trace :=
  match l with
  | [] => []
  | did e :: l' => e :: events_of l'
  | _ :: l' => events_of l'
  end.

(** ** Computations: a log threaded through, and exceptions *)

Definition M (A : Type) : Type := log -> outcome A * log.

Definition ret {A : Type} (a : A) : M A := fun tr => (Return a, tr).

Definition raise {A : Type} (e : exn) : M A := fun tr => (Raise e, tr).

Definition bind {A B : Type} (m : M A) (k : A -> M B) : M B :=
  fun tr =>
    match m tr with
    | (Return a, tr') => k a tr'
    | (Raise e, tr') => (Raise e, tr')
    end.

Definition note (s : step) : M unit := fun l => (Return tt, l ++ [s]).

Definition emit (e : event) : M unit := note (did e).

Declare Scope py_scope.
Delimit Scope py_scope with py.
Notation "x <- m ;; k" := (bind m (fun x => k))
  (at level 100, m at next level, right associativity) : py_scope.
Notation "' p <- m ;; k" := (bind m (fun x => match x with p => k end))
  (at level 100, p pattern, m at next level, right associativity) : py_scope.
Notation "m ;; k" := (bind m (fun _ => k))
  (at level 100, right associativity) : py_scope.

(** A call made on an empty log: what it gives and every step it took. *)
Definition run_log {A : Type} (m : M A) : outcome A * log := m [].

(** A call made on an empty log: what it gives and its trace. *)
Definition run {A : Type} (m : M A) : outcome A * trace :=
  (fst (run_log m), events_of (snd (run_log m))).

(** ** The buffer *)

(** The machine the interpreter runs on: the width of its index type, and
    whether an array of so many wide characters finds memory. *)
Inductive word_size : Type := bits32 | bits64.

Record Machine : Type := mkMachine {
  word : word_size;
  enough_memory : Z -> bool
}.

Definition PY_SSIZE_T_MAX (m : Machine) : Z :=
  match word m with
  | bits32 => 2 ^ 31 - 1
  | bits64 => 2 ^ 63 - 1
  end.

(** [sizeof(wchar_t)] on Windows. *)
Definition sizeof_wchar : Z := 2.

Definition negative_length_message (size : Z) : string :=
  String.append "Array length must be >= 0, not " (str_of_int size).

(** What [(c_wchar * size)()] raises, if anything: the length must fit the
    index type, must not be negative, the array must not exceed the largest
    object, and the memory must be found. *)
Definition allocation_error (m : Machine) (size : Z) : option exn :=
  if ((size <? - PY_SSIZE_T_MAX m - 1) || (PY_SSIZE_T_MAX m <? size))%bool
  then Some (OverflowError "cannot fit 'int' into an index-sized integer")
  else if size <? 0
  then Some (ValueError (negative_length_message size))
  else if PY_SSIZE_T_MAX m / sizeof_wchar <? size
  then Some (OverflowError "array too large")
  else if enough_memory m size
  then None
  else Some MemoryError.

(** [ctypes.create_unicode_buffer(size)] for an int, that is
    [(c_wchar * size)()]: when nothing is raised the array holds [size]
    null characters. *)
Definition create_unicode_buffer (m : Machine) (size : Z) : M wstr :=
  match allocation_error m size with
  | Some e => raise e
  | None => ret (repeat NUL (Z.to_nat size))
  end.

(** The same on a machine without limits, where only a negative length is
    refused. *)
Definition create_unicode_buffer_unbounded (size : Z) : M wstr :=
  if size <? 0
  then raise (ValueError (negative_length_message size))
  else ret (repeat NUL (Z.to_nat size)).

(** The array keeps its length whatever is written to it. *)
Definition refit (n : nat) (w : wstr) : wstr :=
  firstn n w ++ repeat NUL (n - List.length w).

Definition is_high_surrogate (c : wchar) : bool :=
  ((0xD800 <=? c) && (c <=? 0xDBFF))%N.

Definition is_low_surrogate (c : wchar) : bool :=
  ((0xDC00 <=? c) && (c <=? 0xDFFF))%N.

(** [buffer[:]]: the whole array as a [str].  The array holds 16-bit units,
    and a high surrogate followed by a low one reads as one character; a
    surrogate alone is kept. *)
Fixpoint whole_buffer (buffer : wstr) : wstr :=
  match buffer with
  | [] => []
  | h :: rest =>
      match rest with
      | l :: rest' =>
          if (is_high_surrogate h && is_low_surrogate l)%bool
          then (0x10000 + (h - 0xD800) * 0x400 + (l - 0xDC00))%N
                 :: whole_buffer rest'
          else h :: whole_buffer rest
      | [] => [h]
      end
  end.

(** [l[i]] for a list. *)
Definition index {A : Type} (l : list A) (i : nat) : M A :=
  match nth_error l i with
  | Some x => ret x
  | None => raise (IndexError "list index out of range")
  end.

(** ** [select_items] *)

Definition invalid_mode_message : string :=
  "Invalid select_mode value. Must be 'folder', 'file', or 'multi-files'.".

Definition canceled_message : string := "Dialog canceled.".

Definition error_message (error_code : Z) : string :=
  String.append "Error occurred. CommDlgExtendedError code: "
                (str_of_int error_code).

(** The assignments [ofn.lpstrTitle = ...] and [ofn.Flags = ...]. *)
Definition set_title_flags (ofn : OPENFILENAME) (title : wstr) (flags : Z)
  : OPENFILENAME :=
  {| lStructSize := lStructSize ofn;
     hwndOwner := hwndOwner ofn;
     lpstrFilter := lpstrFilter ofn;
     nMaxFile := nMaxFile ofn;
     lpstrTitle := Some title;
     Flags := DWORD flags |}.

Section SelectItems.

(** The answers of the operating system during the call. *)
Variable os : OS.

(** [os.path.join] of the Python standard library, on two paths. *)
Variable path_join : wstr -> wstr -> wstr.

(** *** The foreign functions as the code calls them *)

Definition CoInitialize : M unit := emit call_CoInitialize.

Definition CoUninitialize : M unit := emit call_CoUninitialize.

Definition CoTaskMemFree (pidl : Z) : M unit := emit (call_CoTaskMemFree pidl).

(** [restype] is [c_void_p]: the address, unchanged. *)
Definition SHBrowseForFolder (bi : BROWSEINFO) (buffer : wstr) : M (Z * wstr) :=
  (emit (call_SHBrowseForFolderW bi) ;;
   let (pidl, w) := os_SHBrowseForFolderW os bi buffer in
   ret (pidl, refit (List.length buffer) w))%py.

Definition SHGetPathFromIDList (pidl : Z) (buffer : wstr) : M (Z * wstr) :=
  (emit (call_SHGetPathFromIDListW pidl) ;;
   let (ok, w) := os_SHGetPathFromIDListW os pidl buffer in
   ret (c_int ok, refit (List.length buffer) w))%py.

Definition GetOpenFileName (ofn : OPENFILENAME) (buffer : wstr) : M (Z * wstr) :=
  (emit (call_GetOpenFileNameW ofn) ;;
   let (flag, w) := os_GetOpenFileNameW os ofn buffer in
   ret (c_int flag, refit (List.length buffer) w))%py.

Definition CommDlgExtendedError : M Z :=
  (emit call_CommDlgExtendedError ;;
   ret (c_int (os_CommDlgExtendedError os)))%py.

(** *** The two branches and the function *)

(** Lines 84 to 91: the structure of the folder dialog. *)
Definition bi_folder : BROWSEINFO :=
  {| bi_hwndOwner := 0;
     bi_pidlRoot := 0;
     bi_lpszTitle := title_folder;
     bi_ulFlags := DWORD FOS_PICKFOLDERS;
     bi_lpfn := 0;
     bi_lParam := 0 |}.

(** Lines 70 to 108: the branch of ['folder']. *)
Definition select_folder (buffer : wstr) : M (list wstr) :=
  (note (load_library "shell32") ;;
   note (load_library "ole32") ;;
   note (get_entry "ole32" "CoInitialize") ;;
   CoInitialize ;;
   note (get_entry "shell32" "SHBrowseForFolderW") ;;
   note (get_entry "shell32" "SHGetPathFromIDListW") ;;
   note (get_entry "ole32" "CoTaskMemFree") ;;
   let bi := bi_folder in
   ' (pidl, buffer) <- SHBrowseForFolder bi buffer ;;
   if negb (pidl =? 0) then
     ' (_, buffer) <- SHGetPathFromIDList pidl buffer ;;
     let result := split NUL (whole_buffer buffer) in
     CoTaskMemFree pidl ;;
     note (get_entry "ole32" "CoUninitialize") ;;
     CoUninitialize ;;
     x <- index result 0 ;;
     ret [x]
   else
     note (get_entry "ole32" "CoUninitialize") ;;
     CoUninitialize ;;
     ret [])%py.

(** Lines 150 to 164: the buffer of a successful file dialog. *)
Definition parse_files (buffer : wstr) : M (list wstr) :=
  (let result := filter truthy (split NUL (whole_buffer buffer)) in
   if (1 <? List.length result)%nat then
     folder <- index result 0 ;;
     ret (map (path_join folder) (filter truthy (skipn 1 result)))
   else
     x <- index result 0 ;;
     ret [x])%py.

(** Lines 120 to 130: the structure before the mode is looked at. *)
Definition ofn_init (buffer_size : Z) : OPENFILENAME :=
  {| lStructSize := DWORD (sizeof_OPENFILENAME os);
     hwndOwner := 0;
     lpstrFilter := filter_text;
     nMaxFile := DWORD buffer_size;
     lpstrTitle := None;
     Flags := 0 |}.

Definition ofn_file (buffer_size : Z) : OPENFILENAME :=
  set_title_flags (ofn_init buffer_size) title_file
    (Z.lor OFN_EXPLORER OFN_FILEMUSTEXIST).

Definition ofn_multi (buffer_size : Z) : OPENFILENAME :=
  set_title_flags (ofn_init buffer_size) title_multi
    (Z.lor (Z.lor OFN_EXPLORER OFN_FILEMUSTEXIST) OFN_ALLOWMULTISELECT).

(** Lines 109 to 173: the branch of every other mode. *)
Definition select_files (select_mode : string) (buffer_size : Z)
    (buffer : wstr) : M (list wstr) :=
  (note (load_library "comdlg32") ;;
   note (get_entry "comdlg32" "GetOpenFileNameW") ;;
   note (get_entry "comdlg32" "CommDlgExtendedError") ;;
   ofn <- (if (select_mode =? "file")%string then ret (ofn_file buffer_size)
           else if (select_mode =? "multi-files")%string
                then ret (ofn_multi buffer_size)
                else raise (ValueError invalid_mode_message)) ;;
   ' (flag, buffer) <- GetOpenFileName ofn buffer ;;
   if negb (flag =? 0) then
     parse_files buffer
   else
     error_code <- CommDlgExtendedError ;;
     (if error_code =? 0
      then emit (print canceled_message)
      else emit (print (error_message error_code))) ;;
     ret [])%py.

(** The function on a machine without limits: every size that is not
    negative is allocated.  On a machine with limits the call is the same
    whenever the allocation succeeds ([select_items_on] below). *)
Definition select_items (select_mode : string) (buffer_size : Z)
  : M (list wstr) :=
  (buffer <- create_unicode_buffer_unbounded buffer_size ;;
   if (select_mode =? "folder")%string
   then select_folder buffer
   else select_files select_mode buffer_size buffer)%py.

(** The function on the machine [m]. *)
Definition select_items_on (m : Machine) (select_mode : string)
    (buffer_size : Z) : M (list wstr) :=
  (buffer <- create_unicode_buffer m buffer_size ;;
   if (select_mode =? "folder")%string
   then select_folder buffer
   else select_files select_mode buffer_size buffer)%py.

End SelectItems.

(** ** [os.path.join] on Windows

    The function runs on Windows only ([ctypes.windll]), where [os.path] is
    the module [ntpath] of the Python standard library.  Its [join] is
    written out here for two paths, after [ntpath.splitdrive] and
    [ntpath.join] as of CPython 3.8 to 3.10; [lower] is taken on the letters A
    to Z. *)
Module ntpath.

Definition sep : wchar := 92%N.
Definition altsep : wchar := 47%N.
Definition colon : wchar := 58%N.

Definition is_sep (c : wchar) : bool := ((c =? sep) || (c =? altsep))%N.

Definition wstr_eqb (a b : wstr) : bool :=
  if list_eq_dec N.eq_dec a b then true else false.

Definition lower (s : wstr) : wstr :=
  map (fun c => if ((65 <=? c) && (c <=? 90))%N then (c + 32)%N else c) s.

(** [s.find(c, start)], with [None] for -1. *)
Fixpoint find_at (c : wchar) (s : wstr) (start : nat) (pos : nat) : option nat :=
  match s with
  | [] => None
  | x :: s' =>
      if ((start <=? pos)%nat && (x =? c)%N)%bool then Some pos
      else find_at c s' start (S pos)
  end.

Definition find (c : wchar) (s : wstr) (start : nat) : option nat :=
  find_at c s start 0.

Definition slice (s : wstr) (i j : nat) : wstr := firstn (j - i) (skipn i s).

Definition splitdrive (p : wstr) : wstr * wstr :=
  if (2 <=? List.length p)%nat then
    let normp := map (fun c => if (c =? altsep)%N then sep else c) p in
    if (wstr_eqb (slice normp 0 2) [sep; sep]
        && negb (wstr_eqb (slice normp 2 3) [sep]))%bool then
      match find sep normp 2 with
      | None => ([], p)
      | Some index =>
          match find sep normp (index + 1) with
          | Some index2 =>
              if (index2 =? index + 1)%nat then ([], p)
              else (firstn index2 p, skipn index2 p)
          | None => (p, [])
          end
      end
    else if wstr_eqb (slice normp 1 2) [colon] then (firstn 2 p, skipn 2 p)
    else ([], p)
  else ([], p).

Definition head_is_sep (s : wstr) : bool :=
  match s with c :: _ => is_sep c | [] => false end.

Definition last_is (f : wchar -> bool) (s : wstr) : bool :=
  match rev s with c :: _ => f c | [] => false end.

Definition join (path p : wstr) : wstr :=
  let (result_drive, result_path) := splitdrive path in
  let (p_drive, p_path) := splitdrive p in
  let finish (result_drive result_path : wstr) :=
    if (truthy result_path && negb (head_is_sep result_path)
        && truthy result_drive
        && negb (last_is (fun c => (c =? colon)%N) result_drive))%bool
    then result_drive ++ [sep] ++ result_path
    else result_drive ++ result_path in
  let relative (result_drive : wstr) :=
    let result_path :=
      if (truthy result_path && negb (last_is is_sep result_path))%bool
      then result_path ++ [sep] else result_path in
    finish result_drive (result_path ++ p_path) in
  if head_is_sep p_path then
    finish (if (truthy p_drive || negb (truthy result_drive))%bool
            then p_drive else result_drive) p_path
  else if (truthy p_drive && negb (wstr_eqb p_drive result_drive))%bool then
    if negb (wstr_eqb (lower p_drive) (lower result_drive))
    then finish p_drive p_path
    else relative p_drive
  else relative result_drive.

End ntpath.

(** ** Concrete operating systems for the examples of the specification *)

(** [text] written at the start of a buffer whose content was [old]. *)
Definition write_over (text old : wstr) : wstr :=
  text ++ skipn (List.length text) old.

(** The user confirms the file dialog, which leaves [text] in the buffer. *)
Definition os_confirming_files (text : wstr) : OS :=
  {| sizeof_OPENFILENAME := 152;
     os_SHBrowseForFolderW := fun _ buffer => (0, buffer);
     os_SHGetPathFromIDListW := fun _ buffer => (0, buffer);
     os_GetOpenFileNameW := fun _ buffer => (1, write_over text buffer);
     os_CommDlgExtendedError := 0 |}.

Definition buffer_multi : wstr :=
  str "C:\Dir" ++ [NUL] ++ str "a.txt" ++ [NUL] ++ str "b.txt" ++ [NUL; NUL].

Definition buffer_single : wstr := str "C:\Dir\a.txt" ++ [NUL; NUL].

(** ** What the code receives from the dialogs

    The answers of the oracle at the arguments the code passes, read the way
    the code reads them. *)

Definition fresh_buffer (buffer_size : Z) : wstr :=
  repeat NUL (Z.to_nat buffer_size).

(** The structure of the file dialog in the two file modes. *)
Definition ofn_of (os : OS) (select_mode : string) (buffer_size : Z)
  : OPENFILENAME :=
  if (select_mode =? "file")%string
  then ofn_file os buffer_size else ofn_multi os buffer_size.

(** [flag], the result of [GetOpenFileName]. *)
Definition dialog_flag (os : OS) (select_mode : string) (buffer_size : Z) : Z :=
  c_int (fst (os_GetOpenFileNameW os (ofn_of os select_mode buffer_size)
                (fresh_buffer buffer_size))).

(** [buffer[:]] after [GetOpenFileName]. *)
Definition dialog_buffer (os : OS) (select_mode : string) (buffer_size : Z)
  : wstr :=
  whole_buffer
    (refit (Z.to_nat buffer_size)
       (snd (os_GetOpenFileNameW os (ofn_of os select_mode buffer_size)
               (fresh_buffer buffer_size)))).

(** [error_code], the result of [CommDlgExtendedError]. *)
Definition extended_error (os : OS) : Z := c_int (os_CommDlgExtendedError os).

(** [pidl], the result of [SHBrowseForFolder]. *)
Definition browse_pidl (os : OS) (buffer_size : Z) : Z :=
  fst (os_SHBrowseForFolderW os bi_folder (fresh_buffer buffer_size)).

(** The buffer after [SHBrowseForFolder]. *)
Definition browse_buffer (os : OS) (buffer_size : Z) : wstr :=
  refit (Z.to_nat buffer_size)
    (snd (os_SHBrowseForFolderW os bi_folder (fresh_buffer buffer_size))).

(** The result of [SHGetPathFromIDList], which the code drops. *)
Definition resolve_result (os : OS) (buffer_size : Z) : Z :=
  c_int (fst (os_SHGetPathFromIDListW os (browse_pidl os buffer_size)
                (browse_buffer os buffer_size))).

(** [buffer[:]] after [SHGetPathFromIDList]. *)
Definition resolve_buffer (os : OS) (buffer_size : Z) : wstr :=
  whole_buffer
    (refit (Z.to_nat buffer_size)
       (snd (os_SHGetPathFromIDListW os (browse_pidl os buffer_size)
               (browse_buffer os buffer_size)))).

(** The line printed when the file dialog returns a false flag (lines 168
    to 172). *)
Definition diagnostic (error_code : Z) : string :=
  if error_code =? 0 then canceled_message else error_message error_code.

(** The value a call returns or the exception it raises, and the trace it
    leaves. *)
Definition result_of (os : OS) (path_join : wstr -> wstr -> wstr)
    (select_mode : string) (buffer_size : Z) : outcome (list wstr) :=
  fst (run (select_items os path_join select_mode buffer_size)).

Definition trace_of (os : OS) (path_join : wstr -> wstr -> wstr)
    (select_mode : string) (buffer_size : Z) : trace :=
  snd (run (select_items os path_join select_mode buffer_size)).

(** The same on the machine [m], and every step of the call. *)
Definition result_on (m : Machine) (os : OS)
    (path_join : wstr -> wstr -> wstr) (select_mode : string)
    (buffer_size : Z) : outcome (list wstr) :=
  fst (run (select_items_on os path_join m select_mode buffer_size)).

Definition trace_on (m : Machine) (os : OS)
    (path_join : wstr -> wstr -> wstr) (select_mode : string)
    (buffer_size : Z) : trace :=
  snd (run (select_items_on os path_join m select_mode buffer_size)).

Definition steps_on (m : Machine) (os : OS)
    (path_join : wstr -> wstr -> wstr) (select_mode : string)
    (buffer_size : Z) : log :=
  snd (run_log (select_items_on os path_join m select_mode buffer_size)).

(** The allocation of line 67 succeeds on the machine [m]. *)
Definition allocates (m : Machine) (buffer_size : Z) : Prop :=
  0 <= buffer_size <= PY_SSIZE_T_MAX m / sizeof_wchar /\
  enough_memory m buffer_size = true.

(** What the allocation raises for a negative size. *)
Definition negative_size_error (m : Machine) (buffer_size : Z) : exn :=
  if buffer_size <? - PY_SSIZE_T_MAX m - 1
  then OverflowError "cannot fit 'int' into an index-sized integer"
  else ValueError (negative_length_message buffer_size).

(** A 64-bit machine with memory for arrays up to [limit] characters. *)
Definition machine64 (limit : Z) : Machine :=
  {| word := bits64; enough_memory := fun size => size <=? limit |}.


(** ** The words of the specification *)

Definition valid_mode (select_mode : string) : Prop :=
  select_mode = "folder" \/ select_mode = "file" \/ select_mode = "multi-files".

Definition nul_free (t : wstr) : Prop := Forall (fun c => c <> NUL) t.

Definition file_mode (select_mode : string) : Prop :=
  select_mode = "file" \/ select_mode = "multi-files".

(** The user cancels: the folder dialog returns a null identifier; the file
    dialog reports no selection and the extended error code is zero. *)
Definition cancelled (os : OS) (select_mode : string) (buffer_size : Z) : Prop :=
  (select_mode = "folder" /\ browse_pidl os buffer_size = 0) \/
  (file_mode select_mode /\ dialog_flag os select_mode buffer_size = 0
   /\ extended_error os = 0).

(** The file dialog fails: no selection, and an extended error code that is
    not zero. *)
Definition file_dialog_failed (os : OS) (select_mode : string)
    (buffer_size : Z) : Prop :=
  file_mode select_mode /\ dialog_flag os select_mode buffer_size = 0
  /\ extended_error os <> 0.

(** A token: a non-empty run of characters other than the null. *)
Definition token (t : wstr) : Prop := t <> [] /\ nul_free t.

(** [holds_tokens buffer ts]: the null-separated non-empty tokens of
    [buffer] are [ts], in this order.  Nulls separate tokens; a null next to
    another, at the start or at the end, separates nothing. *)
Inductive holds_tokens : wstr -> list wstr -> Prop :=
| tokens_none : holds_tokens [] []
| tokens_nul (s : wstr) (ts : list wstr) :
    holds_tokens s ts -> holds_tokens (NUL :: s) ts
| tokens_last (t : wstr) :
    token t -> holds_tokens t [t]
| tokens_next (t s : wstr) (ts : list wstr) :
    token t -> holds_tokens s ts -> holds_tokens (t ++ NUL :: s) (t :: ts).

(** The text that precedes the first null of a buffer (all of it when there
    is none). *)
Fixpoint until_nul (s : wstr) : wstr :=
  match s with
  | [] => []
  | c :: s' => if (c =? NUL)%N then [] else c :: until_nul s'
  end.

(** *** Reading a trace *)

Definition is_CoInitialize (e : event) : bool :=
  match e with call_CoInitialize => true | _ => false end.

Definition is_CoUninitialize (e : event) : bool :=
  match e with call_CoUninitialize => true | _ => false end.

Definition is_CoTaskMemFree (e : event) : bool :=
  match e with call_CoTaskMemFree _ => true | _ => false end.

Definition is_CommDlgExtendedError (e : event) : bool :=
  match e with call_CommDlgExtendedError => true | _ => false end.

Definition is_print (e : event) : bool :=
  match e with print _ => true | _ => false end.

Definition count (p : event -> bool) (tr : trace) : nat :=
  List.length (filter p tr).


(** ** More operating systems for the examples *)

(** The user cancels either dialog. *)
Definition os_cancelling : OS :=
  {| sizeof_OPENFILENAME := 152;
     os_SHBrowseForFolderW := fun _ buffer => (0, buffer);
     os_SHGetPathFromIDListW := fun _ buffer => (0, buffer);
     os_GetOpenFileNameW := fun _ buffer => (0, buffer);
     os_CommDlgExtendedError := 0 |}.

(** The file dialog fails with the extended error [code]. *)
Definition os_failing (code : Z) : OS :=
  {| sizeof_OPENFILENAME := 152;
     os_SHBrowseForFolderW := fun _ buffer => (0, buffer);
     os_SHGetPathFromIDListW := fun _ buffer => (0, buffer);
     os_GetOpenFileNameW := fun _ buffer => (0, buffer);
     os_CommDlgExtendedError := code |}.

(** The user picks a folder: the dialog leaves its display name in the
    buffer and returns the identifier [pidl], which resolves to [path]. *)
Definition os_confirming_folder (pidl : Z) (name path : wstr) : OS :=
  {| sizeof_OPENFILENAME := 152;
     os_SHBrowseForFolderW :=
       fun _ buffer => (pidl, write_over (name ++ [NUL]) buffer);
     os_SHGetPathFromIDListW :=
       fun _ buffer => (1, write_over (path ++ [NUL]) buffer);
     os_GetOpenFileNameW := fun _ buffer => (0, buffer);
     os_CommDlgExtendedError := 0 |}.

(** The user picks an item that has no file-system path: the identifier is
    not null, [SHGetPathFromIDList] returns FALSE and leaves an empty
    string. *)
Definition os_unresolvable_folder (pidl : Z) (name : wstr) : OS :=
  {| sizeof_OPENFILENAME := 152;
     os_SHBrowseForFolderW :=
       fun _ buffer => (pidl, write_over (name ++ [NUL]) buffer);
     os_SHGetPathFromIDListW :=
       fun _ buffer => (0, write_over [NUL] buffer);
     os_GetOpenFileNameW := fun _ buffer => (0, buffer);
     os_CommDlgExtendedError := 0 |}.

Definition FNERR_BUFFERTOOSMALL : Z := 0x3003.

(** ** Further vocabulary *)

(** [sep.join(pieces)]. *)
Fixpoint join_with (sep : wchar) (pieces : list wstr) : wstr :=
  match pieces with
  | [] => []
  | [p] => p
  | p :: ps => p ++ sep :: join_with sep ps
  end.

(** The calls that open a dialog. *)
Definition is_dialog (e : event) : bool :=
  match e with
  | call_SHBrowseForFolderW _ | call_GetOpenFileNameW _ => true
  | _ => false
  end.

(** * Properties *)

(** ** Splitting *)

Lemma split_not_nil (sep : wchar) (s : wstr) : split sep s <> [].
Proof.
  destruct s as [|c s]; simpl; [discriminate|].
  destruct (c =? sep)%N; [discriminate|].
  destruct (split sep s); discriminate.
Qed.

Lemma split_nul_free (t : wstr) : nul_free t -> split NUL t = [t].
Proof.
  induction 1 as [|c t Hc _ IH]; simpl; [reflexivity|].
  apply N.eqb_neq in Hc. rewrite Hc, IH. reflexivity.
Qed.

Lemma split_app_nul (t s : wstr) :
  nul_free t -> split NUL (t ++ NUL :: s) = t :: split NUL s.
Proof.
  induction 1 as [|c t Hc _ IH]; simpl; [reflexivity|].
  apply N.eqb_neq in Hc. rewrite Hc, IH. reflexivity.
Qed.

Lemma truthy_token (t : wstr) : token t -> truthy t = true.
Proof. intros [Hne _]. destruct t; [contradiction|reflexivity]. Qed.

(** The tokens of the specification are what the code keeps of the split. *)
Lemma tokens_sound (s : wstr) (ts : list wstr) :
  holds_tokens s ts -> filter truthy (split NUL s) = ts.
Proof.
  induction 1 as [|s ts _ IH|t Ht|t s ts Ht _ IH].
  - reflexivity.
  - simpl. exact IH.
  - rewrite split_nul_free by apply Ht.
    simpl. rewrite truthy_token by exact Ht. reflexivity.
  - rewrite split_app_nul by apply Ht.
    simpl. rewrite truthy_token by exact Ht. rewrite IH. reflexivity.
Qed.

Lemma token_snoc (p : wstr) (c : wchar) :
  c <> NUL -> (p = [] \/ token p) -> token (p ++ [c]).
Proof.
  intros Hc Hp. split.
  - destruct p; discriminate.
  - apply Forall_app. split.
    + destruct Hp as [->|[_ Hp]]; [constructor|exact Hp].
    + constructor; [exact Hc|constructor].
Qed.

Lemma tokens_split_prefix (s : wstr) :
  holds_tokens s (filter truthy (split NUL s)) /\
  forall p t ts, token p -> split NUL s = t :: ts ->
    holds_tokens (p ++ s) ((p ++ t) :: filter truthy ts).
Proof.
  induction s as [|c s [IHs IHp]].
  - split; [constructor|].
    intros p t ts Hp E. simpl in E. injection E as <- <-.
    rewrite app_nil_r. constructor. exact Hp.
  - destruct (N.eqb_spec c NUL) as [->|Hc].
    + split.
      * simpl. constructor. exact IHs.
      * intros p t ts Hp E. simpl in E. injection E as <- <-.
        rewrite app_nil_r. constructor; assumption.
    + assert (Hstep : forall p t ts, (p = [] \/ token p) ->
                split NUL (c :: s) = t :: ts ->
                holds_tokens (p ++ c :: s) ((p ++ t) :: filter truthy ts)).
      { intros p t ts Hp E. simpl in E.
        apply N.eqb_neq in Hc. rewrite Hc in E. apply N.eqb_neq in Hc.
        destruct (split NUL s) as [|t' ts'] eqn:Es.
        - exfalso. exact (split_not_nil _ _ Es).
        - injection E as <- <-.
          change (p ++ c :: s) with (p ++ [c] ++ s).
          change (p ++ c :: t') with (p ++ [c] ++ t').
          rewrite !app_assoc. apply IHp; [|reflexivity].
          apply token_snoc; assumption. }
      split.
      * destruct (split NUL (c :: s)) as [|t ts] eqn:E.
        { exfalso. exact (split_not_nil _ _ E). }
        assert (Ht : truthy t = true).
        { simpl in E. apply N.eqb_neq in Hc. rewrite Hc in E.
          destruct (split NUL s); injection E as <- _; reflexivity. }
        simpl. rewrite Ht.
        apply (Hstep [] t ts); [left; reflexivity|reflexivity].
      * intros p t ts Hp E. apply Hstep; [right; exact Hp|exact E].
Qed.

(** Every buffer holds the tokens the code keeps. *)
Lemma tokens_complete (s : wstr) :
  holds_tokens s (filter truthy (split NUL s)).
Proof. apply tokens_split_prefix. Qed.

Lemma tokens_iff (s : wstr) (ts : list wstr) :
  holds_tokens s ts <-> filter truthy (split NUL s) = ts.
Proof.
  split; [apply tokens_sound|]. intros <-. apply tokens_complete.
Qed.

(** The first piece of the split is the text before the first null. *)
Lemma split_head (s : wstr) :
  exists rest, split NUL s = until_nul s :: rest.
Proof.
  induction s as [|c s [rest IH]]; simpl.
  - exists []. reflexivity.
  - destruct (c =? NUL)%N.
    + eexists. reflexivity.
    + rewrite IH. eexists. reflexivity.
Qed.

Lemma until_nul_app (t rest : wstr) :
  nul_free t -> until_nul (t ++ NUL :: rest) = t.
Proof.
  induction 1 as [|c t Hc _ IH]; simpl; [reflexivity|].
  apply N.eqb_neq in Hc. rewrite Hc, IH. reflexivity.
Qed.

Lemma all_nul_no_token (s : wstr) :
  Forall (fun c => c = NUL) s -> filter truthy (split NUL s) = [].
Proof.
  induction 1 as [|c s Hc _ IH]; [reflexivity|].
  subst c. simpl. exact IH.
Qed.

(** ** The steps of the function *)

Lemma filter_fixed {A : Type} (p : A -> bool) (l : list A) :
  Forall (fun x => p x = true) l -> filter p l = l.
Proof.
  induction 1 as [|x l Hx _ IH]; simpl; [reflexivity|].
  rewrite Hx, IH. reflexivity.
Qed.

Lemma filter_tail_fixed {A : Type} (p : A -> bool) (l : list A) (x : A)
    (rest : list A) :
  filter p l = x :: rest -> filter p rest = rest.
Proof.
  intros E. apply filter_fixed.
  assert (H : Forall (fun y => p y = true) (filter p l)).
  { apply Forall_forall. intros y Hy. apply filter_In in Hy. apply Hy. }
  rewrite E in H. inversion H; assumption.
Qed.

(** What the parsing of lines 150 to 164 returns, by the tokens kept. *)
Lemma parse_files_run (path_join : wstr -> wstr -> wstr) (buffer : wstr)
    (l : log) :
  parse_files path_join buffer l =
  (match filter truthy (split NUL (whole_buffer buffer)) with
   | [] => Raise (IndexError "list index out of range")
   | [t] => Return [t]
   | folder :: files => Return (map (path_join folder) files)
   end, l).
Proof.
  unfold parse_files.
  destruct (filter truthy (split NUL (whole_buffer buffer)))
    as [|d [|f fs]] eqn:E; try reflexivity.
  cbn [List.length Nat.ltb Nat.leb skipn].
  unfold bind, index, ret. cbn [nth_error].
  rewrite (filter_tail_fixed _ _ _ _ E). reflexivity.
Qed.

Lemma fresh_buffer_length (size : Z) :
  List.length (fresh_buffer size) = Z.to_nat size.
Proof. apply repeat_length. Qed.

Lemma refit_length (n : nat) (w : wstr) : List.length (refit n w) = n.
Proof.
  unfold refit. rewrite length_app, length_firstn, repeat_length. lia.
Qed.

(** Every step of the branch of ['folder'], on a fresh buffer. *)
Lemma select_folder_log (os : OS) (size : Z) :
  select_folder os (fresh_buffer size) [] =
  if negb (browse_pidl os size =? 0)
  then (Return [until_nul (resolve_buffer os size)],
        [load_library "shell32"; load_library "ole32";
         get_entry "ole32" "CoInitialize"; did call_CoInitialize;
         get_entry "shell32" "SHBrowseForFolderW";
         get_entry "shell32" "SHGetPathFromIDListW";
         get_entry "ole32" "CoTaskMemFree";
         did (call_SHBrowseForFolderW bi_folder);
         did (call_SHGetPathFromIDListW (browse_pidl os size));
         did (call_CoTaskMemFree (browse_pidl os size));
         get_entry "ole32" "CoUninitialize"; did call_CoUninitialize])
  else (Return [],
        [load_library "shell32"; load_library "ole32";
         get_entry "ole32" "CoInitialize"; did call_CoInitialize;
         get_entry "shell32" "SHBrowseForFolderW";
         get_entry "shell32" "SHGetPathFromIDListW";
         get_entry "ole32" "CoTaskMemFree";
         did (call_SHBrowseForFolderW bi_folder);
         get_entry "ole32" "CoUninitialize"; did call_CoUninitialize]).
Proof.
  unfold select_folder, SHBrowseForFolder, CoInitialize, CoUninitialize,
    CoTaskMemFree, bind, emit, note, ret. cbn [app].
  unfold browse_pidl, resolve_buffer, browse_buffer, browse_pidl.
  rewrite fresh_buffer_length.
  destruct (os_SHBrowseForFolderW os bi_folder (fresh_buffer size))
    as [pidl w]. cbn [fst snd].
  destruct (negb (pidl =? 0)); [|reflexivity].
  unfold SHGetPathFromIDList, bind, emit, note, ret. cbn [app].
  rewrite refit_length.
  destruct (os_SHGetPathFromIDListW os pidl (refit (Z.to_nat size) w))
    as [ok w']. cbn [fst snd].
  destruct (split_head (whole_buffer (refit (Z.to_nat size) w')))
    as [rest ->].
  reflexivity.
Qed.

(** Every step of the other branch in the two file modes. *)
Lemma select_files_log (os : OS) (path_join : wstr -> wstr -> wstr)
    (select_mode : string) (size : Z) :
  file_mode select_mode ->
  select_files os path_join select_mode size (fresh_buffer size) [] =
  if negb (dialog_flag os select_mode size =? 0)
  then (match filter truthy (split NUL (dialog_buffer os select_mode size))
        with
        | [] => Raise (IndexError "list index out of range")
        | [t] => Return [t]
        | folder :: files => Return (map (path_join folder) files)
        end,
        [load_library "comdlg32"; get_entry "comdlg32" "GetOpenFileNameW";
         get_entry "comdlg32" "CommDlgExtendedError";
         did (call_GetOpenFileNameW (ofn_of os select_mode size))])
  else (Return [],
        [load_library "comdlg32"; get_entry "comdlg32" "GetOpenFileNameW";
         get_entry "comdlg32" "CommDlgExtendedError";
         did (call_GetOpenFileNameW (ofn_of os select_mode size));
         did call_CommDlgExtendedError;
         did (print (diagnostic (extended_error os)))]).
Proof.
  intros Hmode. unfold select_files, bind at 1 2 3 4, note.
  cbn [app].
  assert (E' : (if (select_mode =? "file")%string
                then @ret OPENFILENAME (ofn_file os size)
                else if (select_mode =? "multi-files")%string
                     then ret (ofn_multi os size)
                     else raise (ValueError invalid_mode_message))
               = ret (ofn_of os select_mode size))
    by (destruct Hmode as [-> | ->]; reflexivity).
  rewrite E'. unfold ret at 1.
  unfold GetOpenFileName, bind, emit, note, ret. cbn [app].
  unfold dialog_flag, dialog_buffer. rewrite fresh_buffer_length.
  destruct (os_GetOpenFileNameW os (ofn_of os select_mode size)
              (fresh_buffer size)) as [flag w]. cbn [fst snd].
  destruct (negb (c_int flag =? 0)).
  - rewrite parse_files_run. reflexivity.
  - unfold CommDlgExtendedError, bind, emit, note, ret, extended_error,
      diagnostic. cbn [app].
    destruct (c_int (os_CommDlgExtendedError os) =? 0); reflexivity.
Qed.

(** Every step of the other branch for a mode that is none of the three. *)
Lemma select_files_invalid_log (os : OS) (path_join : wstr -> wstr -> wstr)
    (select_mode : string) (size : Z) (buffer : wstr) :
  ~ valid_mode select_mode ->
  select_files os path_join select_mode size buffer [] =
  (Raise (ValueError invalid_mode_message),
   [load_library "comdlg32"; get_entry "comdlg32" "GetOpenFileNameW";
    get_entry "comdlg32" "CommDlgExtendedError"]).
Proof.
  intros Hmode. unfold valid_mode in Hmode.
  unfold select_files, bind at 1 2 3 4, note. cbn [app].
  destruct (String.eqb_spec select_mode "file") as [->|_]; [tauto|].
  destruct (String.eqb_spec select_mode "multi-files") as [->|_]; [tauto|].
  reflexivity.
Qed.

Lemma create_unicode_buffer_unbounded_ok (size : Z) (l : log) :
  0 <= size ->
  create_unicode_buffer_unbounded size l = (Return (fresh_buffer size), l).
Proof.
  intros H. unfold create_unicode_buffer_unbounded.
  destruct (Z.ltb_spec size 0); [lia|reflexivity].
Qed.

Lemma allocates_no_error (m : Machine) (size : Z) :
  allocates m size <-> allocation_error m size = None.
Proof.
  unfold allocates, allocation_error.
  assert (Hmax : 0 <= PY_SSIZE_T_MAX m / sizeof_wchar <= PY_SSIZE_T_MAX m).
  { unfold PY_SSIZE_T_MAX, sizeof_wchar.
    destruct (word m); split; vm_compute; discriminate. }
  destruct (Z.ltb_spec size (- PY_SSIZE_T_MAX m - 1)); cbn [orb].
  { split; [lia|discriminate]. }
  destruct (Z.ltb_spec (PY_SSIZE_T_MAX m) size).
  { split; [lia|discriminate]. }
  destruct (Z.ltb_spec size 0).
  { split; [lia|discriminate]. }
  destruct (Z.ltb_spec (PY_SSIZE_T_MAX m / sizeof_wchar) size).
  { split; [lia|discriminate]. }
  destruct (enough_memory m size).
  - split; [reflexivity|]. intros _. split; [lia|reflexivity].
  - split; [intros [_ E]; discriminate E|discriminate].
Qed.

Lemma create_unicode_buffer_ok (m : Machine) (size : Z) (l : log) :
  allocates m size ->
  create_unicode_buffer m size l = (Return (fresh_buffer size), l).
Proof.
  intros H. unfold create_unicode_buffer.
  apply allocates_no_error in H. rewrite H. reflexivity.
Qed.

(** The function on the machine [m] does what the function without limits
    does whenever the allocation succeeds. *)
Lemma select_items_on_allocated (m : Machine) (os : OS)
    (path_join : wstr -> wstr -> wstr) (select_mode : string) (size : Z) :
  allocates m size ->
  run_log (select_items_on os path_join m select_mode size) =
  run_log (select_items os path_join select_mode size).
Proof.
  intros H. unfold run_log, select_items_on, select_items, bind.
  rewrite create_unicode_buffer_ok by exact H.
  rewrite create_unicode_buffer_unbounded_ok by apply H.
  reflexivity.
Qed.

(** Past the allocation, the call is one of the two branches. *)
Lemma select_items_log (os : OS) (path_join : wstr -> wstr -> wstr)
    (select_mode : string) (size : Z) :
  0 <= size ->
  run_log (select_items os path_join select_mode size) =
  if (select_mode =? "folder")%string
  then select_folder os (fresh_buffer size) []
  else select_files os path_join select_mode size (fresh_buffer size) [].
Proof.
  intros H. unfold run_log, select_items, bind.
  rewrite create_unicode_buffer_unbounded_ok by exact H.
  destruct (select_mode =? "folder")%string; reflexivity.
Qed.

(** A negative size: the allocation raises and nothing else happens. *)
Lemma run_negative (os : OS) (path_join : wstr -> wstr -> wstr)
    (select_mode : string) (size : Z) :
  size < 0 ->
  run (select_items os path_join select_mode size) =
  (Raise (ValueError (String.append "Array length must be >= 0, not "
                                    (str_of_int size))), []).
Proof.
  intros H.
  unfold run, run_log, select_items, bind, create_unicode_buffer_unbounded.
  destruct (Z.ltb_spec size 0); [reflexivity|lia].
Qed.

(** The branch of ['folder']. *)
Lemma run_folder (os : OS) (path_join : wstr -> wstr -> wstr) (size : Z) :
  0 <= size ->
  run (select_items os path_join "folder" size) =
  if negb (browse_pidl os size =? 0)
  then (Return [until_nul (resolve_buffer os size)],
        [call_CoInitialize; call_SHBrowseForFolderW bi_folder;
         call_SHGetPathFromIDListW (browse_pidl os size);
         call_CoTaskMemFree (browse_pidl os size); call_CoUninitialize])
  else (Return [],
        [call_CoInitialize; call_SHBrowseForFolderW bi_folder;
         call_CoUninitialize]).
Proof.
  intros H. unfold run. rewrite select_items_log by exact H.
  cbn [String.eqb Ascii.eqb Bool.eqb].
  rewrite select_folder_log.
  destruct (negb (browse_pidl os size =? 0)); reflexivity.
Qed.

(** The branch of ['file'] and ['multi-files']. *)
Lemma run_files (os : OS) (path_join : wstr -> wstr -> wstr)
    (select_mode : string) (size : Z) :
  0 <= size ->
  file_mode select_mode ->
  run (select_items os path_join select_mode size) =
  if negb (dialog_flag os select_mode size =? 0)
  then (match filter truthy (split NUL (dialog_buffer os select_mode size))
        with
        | [] => Raise (IndexError "list index out of range")
        | [t] => Return [t]
        | folder :: files => Return (map (path_join folder) files)
        end,
        [call_GetOpenFileNameW (ofn_of os select_mode size)])
  else (Return [],
        [call_GetOpenFileNameW (ofn_of os select_mode size);
         call_CommDlgExtendedError; print (diagnostic (extended_error os))]).
Proof.
  intros H Hmode. unfold run. rewrite select_items_log by exact H.
  assert (E : (select_mode =? "folder")%string = false)
    by (destruct Hmode as [-> | ->]; reflexivity).
  rewrite E, select_files_log by exact Hmode.
  destruct (negb (dialog_flag os select_mode size =? 0)); reflexivity.
Qed.

(** Any other mode: the exception of line 145, before any call. *)
Lemma run_invalid (os : OS) (path_join : wstr -> wstr -> wstr)
    (select_mode : string) (size : Z) :
  0 <= size ->
  ~ valid_mode select_mode ->
  run (select_items os path_join select_mode size) =
  (Raise (ValueError invalid_mode_message), []).
Proof.
  intros H Hmode. unfold run. rewrite select_items_log by exact H.
  assert (E : (select_mode =? "folder")%string = false).
  { destruct (String.eqb_spec select_mode "folder") as [->|_];
      [|reflexivity].
    exfalso. apply Hmode. left. reflexivity. }
  rewrite E, select_files_invalid_log by exact Hmode. reflexivity.
Qed.

(** On the machine [m]: a refused allocation ends the call before any
    step; an allocation that succeeds leaves the call as it is without
    limits. *)
Lemma run_log_refused (m : Machine) (os : OS)
    (path_join : wstr -> wstr -> wstr) (select_mode : string) (size : Z)
    (e : exn) :
  allocation_error m size = Some e ->
  run_log (select_items_on os path_join m select_mode size) = (Raise e, []).
Proof.
  intros H. unfold run_log, select_items_on, bind, create_unicode_buffer.
  rewrite H. reflexivity.
Qed.

Lemma run_on_allocated (m : Machine) (os : OS)
    (path_join : wstr -> wstr -> wstr) (select_mode : string) (size : Z) :
  allocates m size ->
  run (select_items_on os path_join m select_mode size) =
  run (select_items os path_join select_mode size).
Proof.
  intros H. unfold run. rewrite select_items_on_allocated by exact H.
  reflexivity.
Qed.

Lemma negative_allocation_error (m : Machine) (size : Z) :
  size < 0 -> allocation_error m size = Some (negative_size_error m size).
Proof.
  intros H. unfold allocation_error, negative_size_error.
  assert (Hmax : 0 <= PY_SSIZE_T_MAX m)
    by (unfold PY_SSIZE_T_MAX; destruct (word m); vm_compute; discriminate).
  destruct (Z.ltb_spec size (- PY_SSIZE_T_MAX m - 1)); [reflexivity|].
  destruct (Z.ltb_spec (PY_SSIZE_T_MAX m) size); [lia|]. cbn [orb].
  destruct (Z.ltb_spec size 0); [reflexivity|lia].
Qed.

Lemma allocation_cases (m : Machine) (size : Z) :
  allocates m size \/ exists e, allocation_error m size = Some e.
Proof.
  destruct (allocation_error m size) as [e|] eqn:E.
  - right. exists e. reflexivity.
  - left. apply allocates_no_error. exact E.
Qed.

Lemma tokens_all_nul (k : nat) : holds_tokens (repeat NUL k) [].
Proof. induction k; simpl; constructor; assumption. Qed.

Lemma str_token (s : string) :
  truthy (str s) = true ->
  forallb (fun c => negb (c =? NUL)%N) (str s) = true ->
  token (str s).
Proof.
  intros Hne Hfree. split.
  - destruct (str s); [discriminate|discriminate].
  - apply Forall_forall. intros c Hc.
    rewrite forallb_forall in Hfree. specialize (Hfree c Hc).
    apply negb_true_iff, N.eqb_neq in Hfree. exact Hfree.
Qed.

(** A successful file dialog: the call is the only event, and the result is
    what the parsing returns. *)
Lemma run_files_success (os : OS) (path_join : wstr -> wstr -> wstr)
    (select_mode : string) (size : Z) :
  0 <= size ->
  file_mode select_mode ->
  dialog_flag os select_mode size <> 0 ->
  run (select_items os path_join select_mode size) =
  (match filter truthy (split NUL (dialog_buffer os select_mode size)) with
   | [] => Raise (IndexError "list index out of range")
   | [t] => Return [t]
   | folder :: files => Return (map (path_join folder) files)
   end,
   [call_GetOpenFileNameW (ofn_of os select_mode size)]).
Proof.
  intros H Hmode Hflag. rewrite run_files by assumption.
  apply Z.eqb_neq in Hflag. rewrite Hflag. reflexivity.
Qed.

(** ** The claims *)

(** C1.  In ['multi-files'] mode, when the dialog succeeds and the buffer
    holds more than one null-separated non-empty token, the first token is
    the shared directory and the result is, for each later token in buffer
    order, the join of the directory and that token; the dialog call is the
    only event.  In particular a buffer that starts with
    ["C:\Dir\0a.txt\0b.txt\0\0"] (and has only nulls after it) gives
    ["C:\Dir\a.txt"; "C:\Dir\b.txt"] under the join of Windows paths. *)
Theorem multi_files_joins_directory :
  (forall (os : OS) (path_join : wstr -> wstr -> wstr) (size : Z)
          (d f : wstr) (fs : list wstr),
      0 <= size ->
      dialog_flag os "multi-files" size <> 0 ->
      holds_tokens (dialog_buffer os "multi-files" size) (d :: f :: fs) ->
      run (select_items os path_join "multi-files" size) =
      (Return (map (path_join d) (f :: fs)),
       [call_GetOpenFileNameW (ofn_multi os size)]))
  /\
  (forall (os : OS) (size : Z) (k : nat),
      0 <= size ->
      dialog_flag os "multi-files" size <> 0 ->
      dialog_buffer os "multi-files" size = buffer_multi ++ repeat NUL k ->
      result_of os ntpath.join "multi-files" size =
      Return [str "C:\Dir\a.txt"; str "C:\Dir\b.txt"]).
Proof.
  assert (General : forall os path_join size d f fs,
             0 <= size ->
             dialog_flag os "multi-files" size <> 0 ->
             holds_tokens (dialog_buffer os "multi-files" size) (d :: f :: fs) ->
             run (select_items os path_join "multi-files" size) =
             (Return (map (path_join d) (f :: fs)),
              [call_GetOpenFileNameW (ofn_multi os size)])).
  { intros os path_join size d f fs H Hflag Htok.
    rewrite run_files_success; [|assumption|right; reflexivity|assumption].
    rewrite (tokens_sound _ _ Htok). reflexivity. }
  split; [exact General|].
  intros os size k H Hflag Hbuf. unfold result_of.
  rewrite (General os ntpath.join size (str "C:\Dir") (str "a.txt")
             [str "b.txt"]); [reflexivity|assumption|assumption|].
  rewrite Hbuf. unfold buffer_multi. rewrite <- !app_assoc.
  apply tokens_next; [apply str_token; reflexivity|].
  apply tokens_next; [apply str_token; reflexivity|].
  apply (tokens_next (str "b.txt") (NUL :: repeat NUL k) []);
    [apply str_token; reflexivity|].
  apply (tokens_all_nul (S k)).
Qed.

Lemma multi_files_joins_directory_witness :
  (0 <= 64 /\
   dialog_flag (os_confirming_files buffer_multi) "multi-files" 64 <> 0 /\
   run (select_items (os_confirming_files buffer_multi)
          (fun d f => d ++ [ntpath.sep] ++ f) "multi-files" 64) =
   (Return [str "C:\Dir\a.txt"; str "C:\Dir\b.txt"],
    [call_GetOpenFileNameW
       (ofn_multi (os_confirming_files buffer_multi) 64)]))
  /\
  result_of (os_confirming_files buffer_multi) ntpath.join "multi-files" 8192 =
  Return [str "C:\Dir\a.txt"; str "C:\Dir\b.txt"].
Proof.
  split.
  - split; [lia|]. split; [vm_compute; discriminate|].
    apply (proj1 multi_files_joins_directory
             (os_confirming_files buffer_multi)
             (fun d f => d ++ [ntpath.sep] ++ f) 64
             (str "C:\Dir") (str "a.txt") [str "b.txt"]).
    + lia.
    + vm_compute; discriminate.
    + apply tokens_iff. vm_compute. reflexivity.
  - apply (proj2 multi_files_joins_directory
             (os_confirming_files buffer_multi) 8192 (Z.to_nat 8172)).
    + lia.
    + vm_compute; discriminate.
    + vm_compute. reflexivity.
Defined.

(** C7.  In ['file'] and ['multi-files'] modes, when the dialog succeeds and
    the buffer holds exactly one null-separated non-empty token, that token
    is returned unchanged as the only path; the dialog call is the only
    event.  In particular a buffer that starts with ["C:\Dir\a.txt\0\0"]
    (and has only nulls after it) gives ["C:\Dir\a.txt"]. *)
Theorem single_token_is_the_path :
  (forall (os : OS) (path_join : wstr -> wstr -> wstr)
          (select_mode : string) (size : Z) (t : wstr),
      0 <= size ->
      file_mode select_mode ->
      dialog_flag os select_mode size <> 0 ->
      holds_tokens (dialog_buffer os select_mode size) [t] ->
      run (select_items os path_join select_mode size) =
      (Return [t], [call_GetOpenFileNameW (ofn_of os select_mode size)]))
  /\
  (forall (os : OS) (path_join : wstr -> wstr -> wstr)
          (select_mode : string) (size : Z) (k : nat),
      0 <= size ->
      file_mode select_mode ->
      dialog_flag os select_mode size <> 0 ->
      dialog_buffer os select_mode size = buffer_single ++ repeat NUL k ->
      result_of os path_join select_mode size = Return [str "C:\Dir\a.txt"]).
Proof.
  assert (General : forall os path_join select_mode size t,
             0 <= size ->
             file_mode select_mode ->
             dialog_flag os select_mode size <> 0 ->
             holds_tokens (dialog_buffer os select_mode size) [t] ->
             run (select_items os path_join select_mode size) =
             (Return [t],
              [call_GetOpenFileNameW (ofn_of os select_mode size)])).
  { intros os path_join select_mode size t H Hmode Hflag Htok.
    rewrite run_files_success by assumption.
    rewrite (tokens_sound _ _ Htok). reflexivity. }
  split; [exact General|].
  intros os path_join select_mode size k H Hmode Hflag Hbuf. unfold result_of.
  rewrite (General os path_join select_mode size (str "C:\Dir\a.txt"));
    [reflexivity|assumption|assumption|assumption|].
  rewrite Hbuf. unfold buffer_single. rewrite <- app_assoc.
  apply (tokens_next (str "C:\Dir\a.txt") (NUL :: repeat NUL k) []);
    [apply str_token; reflexivity|].
  apply (tokens_all_nul (S k)).
Qed.

Lemma single_token_is_the_path_witness :
  (file_mode "file" /\
   dialog_flag (os_confirming_files buffer_single) "file" 64 <> 0 /\
   run (select_items (os_confirming_files buffer_single) ntpath.join
          "file" 64) =
   (Return [str "C:\Dir\a.txt"],
    [call_GetOpenFileNameW
       (ofn_file (os_confirming_files buffer_single) 64)]))
  /\
  result_of (os_confirming_files buffer_single) ntpath.join "multi-files" 8192
  = Return [str "C:\Dir\a.txt"].
Proof.
  split.
  - split; [left; reflexivity|]. split; [vm_compute; discriminate|].
    apply (proj1 single_token_is_the_path
             (os_confirming_files buffer_single) ntpath.join "file" 64
             (str "C:\Dir\a.txt")).
    + lia.
    + left; reflexivity.
    + vm_compute; discriminate.
    + apply tokens_iff. vm_compute. reflexivity.
  - apply (proj2 single_token_is_the_path
             (os_confirming_files buffer_single) ntpath.join "multi-files"
             8192 (Z.to_nat 8178)).
    + lia.
    + right; reflexivity.
    + vm_compute; discriminate.
    + vm_compute. reflexivity.
Defined.

(** C8.  In ['file'] and ['multi-files'] modes, when the dialog call reports
    success, the first kept token is indexed without a check that there is
    one: for a buffer that has no character other than the null,
    [select_items] raises an index error instead of returning a list. *)
Theorem empty_buffer_raises_index_error :
  forall (os : OS) (path_join : wstr -> wstr -> wstr)
         (select_mode : string) (size : Z),
    0 <= size ->
    file_mode select_mode ->
    dialog_flag os select_mode size <> 0 ->
    Forall (fun c => c = NUL) (dialog_buffer os select_mode size) ->
    run (select_items os path_join select_mode size) =
    (Raise (IndexError "list index out of range"),
     [call_GetOpenFileNameW (ofn_of os select_mode size)]).
Proof.
  intros os path_join select_mode size H Hmode Hflag Hnul.
  rewrite run_files_success by assumption.
  rewrite all_nul_no_token by exact Hnul. reflexivity.
Qed.

Lemma empty_buffer_raises_index_error_witness :
  Forall (fun c => c = NUL)
    (dialog_buffer (os_confirming_files []) "file" 8) /\
  run (select_items (os_confirming_files []) ntpath.join "file" 8) =
  (Raise (IndexError "list index out of range"),
   [call_GetOpenFileNameW (ofn_file (os_confirming_files []) 8)]).
Proof.
  assert (Hnul : Forall (fun c => c = NUL)
                   (dialog_buffer (os_confirming_files []) "file" 8))
    by (vm_compute; repeat constructor).
  split; [exact Hnul|].
  apply (empty_buffer_raises_index_error
           (os_confirming_files []) ntpath.join "file" 8).
  - lia.
  - left; reflexivity.
  - vm_compute; discriminate.
  - exact Hnul.
Defined.




(** C3.  For every valid mode, when the user cancels the dialog (the file
    dialog reports no selection and the extended error code is zero, or the
    folder dialog returns a null item identifier), [select_items] returns
    the empty list and does not raise. *)
Theorem cancel_returns_empty :
  forall (os : OS) (path_join : wstr -> wstr -> wstr)
         (select_mode : string) (size : Z),
    0 <= size ->
    valid_mode select_mode ->
    cancelled os select_mode size ->
    result_of os path_join select_mode size = Return [].
Proof.
  intros os path_join select_mode size H _ Hcancel. unfold result_of.
  destruct Hcancel as [[-> Hpidl]|[Hmode [Hflag _]]].
  - rewrite run_folder by exact H. rewrite Hpidl. reflexivity.
  - rewrite run_files by assumption. rewrite Hflag. reflexivity.
Qed.

Lemma cancel_returns_empty_witness :
  (cancelled os_cancelling "folder" 8192 /\
   result_of os_cancelling ntpath.join "folder" 8192 = Return []) /\
  (cancelled os_cancelling "file" 8192 /\
   result_of os_cancelling ntpath.join "file" 8192 = Return []) /\
  (cancelled os_cancelling "multi-files" 8192 /\
   result_of os_cancelling ntpath.join "multi-files" 8192 = Return []).
Proof.
  assert (Hfolder : cancelled os_cancelling "folder" 8192)
    by (left; split; reflexivity).
  assert (Hfile : cancelled os_cancelling "file" 8192)
    by (right; split; [left; reflexivity|split; reflexivity]).
  assert (Hmulti : cancelled os_cancelling "multi-files" 8192)
    by (right; split; [right; reflexivity|split; reflexivity]).
  split; [split; [exact Hfolder|]|split; (split; [assumption|])].
  - apply (cancel_returns_empty os_cancelling ntpath.join "folder" 8192);
      [lia|left; reflexivity|exact Hfolder].
  - apply (cancel_returns_empty os_cancelling ntpath.join "file" 8192);
      [lia|right; left; reflexivity|exact Hfile].
  - apply (cancel_returns_empty os_cancelling ntpath.join "multi-files" 8192);
      [lia|right; right; reflexivity|exact Hmulti].
Defined.

(** C4, as the code has it.  In ['file'] and ['multi-files'] modes, when the
    dialog fails and that is not a cancellation (no selection, extended
    error code not zero), [select_items] calls [CommDlgExtendedError],
    prints a line that carries the code, and returns the empty list.  In
    ['folder'] mode [CommDlgExtendedError] is never called and nothing is
    printed. *)
Theorem file_dialog_failure_is_reported :
  (forall (os : OS) (path_join : wstr -> wstr -> wstr)
          (select_mode : string) (size : Z),
      0 <= size ->
      file_dialog_failed os select_mode size ->
      run (select_items os path_join select_mode size) =
      (Return [],
       [call_GetOpenFileNameW (ofn_of os select_mode size);
        call_CommDlgExtendedError;
        print (error_message (extended_error os))]))
  /\
  (forall (os : OS) (path_join : wstr -> wstr -> wstr) (size : Z),
      count is_CommDlgExtendedError (trace_of os path_join "folder" size)
        = 0%nat /\
      count is_print (trace_of os path_join "folder" size) = 0%nat).
Proof.
  split.
  - intros os path_join select_mode size H [Hmode [Hflag Hcode]].
    rewrite run_files by assumption. rewrite Hflag. cbn [Z.eqb negb].
    unfold diagnostic. apply Z.eqb_neq in Hcode. rewrite Hcode. reflexivity.
  - intros os path_join size. unfold trace_of.
    destruct (Z.lt_ge_cases size 0) as [Hneg|Hpos].
    + rewrite run_negative by exact Hneg. split; reflexivity.
    + rewrite run_folder by exact Hpos.
      destruct (negb (browse_pidl os size =? 0)); split; reflexivity.
Qed.

Lemma file_dialog_failure_is_reported_witness :
  file_dialog_failed (os_failing FNERR_BUFFERTOOSMALL) "multi-files" 8192 /\
  run (select_items (os_failing FNERR_BUFFERTOOSMALL) ntpath.join
         "multi-files" 8192) =
  (Return [],
   [call_GetOpenFileNameW
      (ofn_multi (os_failing FNERR_BUFFERTOOSMALL) 8192);
    call_CommDlgExtendedError;
    print "Error occurred. CommDlgExtendedError code: 12291"]).
Proof.
  assert (Hfail : file_dialog_failed (os_failing FNERR_BUFFERTOOSMALL)
                    "multi-files" 8192).
  { split; [right; reflexivity|]. split; [reflexivity|].
    vm_compute. discriminate. }
  split; [exact Hfail|].
  apply (proj1 file_dialog_failure_is_reported
           (os_failing FNERR_BUFFERTOOSMALL) ntpath.join "multi-files" 8192).
  - lia.
  - exact Hfail.
Defined.

(** C4, as stated, fails in ['folder'] mode.  The user picks an item and the
    dialog returns its identifier, so nothing was cancelled; the
    identifier does not resolve to a path ([SHGetPathFromIDList] returns
    FALSE).  [select_items] returns a list that is not empty, never calls
    [CommDlgExtendedError] and prints nothing. *)
Lemma folder_failure_is_not_reported :
  valid_mode "folder" /\
  browse_pidl (os_unresolvable_folder 4096 (str "This PC")) 64 <> 0 /\
  resolve_result (os_unresolvable_folder 4096 (str "This PC")) 64 = 0 /\
  result_of (os_unresolvable_folder 4096 (str "This PC")) ntpath.join
    "folder" 64 = Return [[]] /\
  result_of (os_unresolvable_folder 4096 (str "This PC")) ntpath.join
    "folder" 64 <> Return [] /\
  count is_CommDlgExtendedError
    (trace_of (os_unresolvable_folder 4096 (str "This PC")) ntpath.join
       "folder" 64) = 0%nat /\
  count is_print
    (trace_of (os_unresolvable_folder 4096 (str "This PC")) ntpath.join
       "folder" 64) = 0%nat.
Proof.
  split; [left; reflexivity|].
  split; [vm_compute; discriminate|].
  split; [reflexivity|].
  split; [vm_compute; reflexivity|].
  split; [vm_compute; discriminate|].
  split; vm_compute; reflexivity.
Qed.

(** The modes are told apart by comparing strings. *)
Lemma mode_cases (select_mode : string) :
  select_mode = "folder" \/ file_mode select_mode \/ ~ valid_mode select_mode.
Proof.
  destruct (string_dec select_mode "folder") as [->|Hfolder]; [tauto|].
  destruct (string_dec select_mode "file") as [->|Hfile];
    [right; left; left; reflexivity|].
  destruct (string_dec select_mode "multi-files") as [->|Hmulti];
    [right; left; right; reflexivity|].
  right; right. unfold valid_mode. tauto.
Qed.

(** Outside ['folder'] mode, and whenever the allocation fails, the trace has
    none of the three COM calls. *)
Lemma no_com_outside_folder (os : OS) (path_join : wstr -> wstr -> wstr)
    (select_mode : string) (size : Z) :
  select_mode <> "folder" ->
  count is_CoInitialize (trace_of os path_join select_mode size) = 0%nat /\
  count is_CoUninitialize (trace_of os path_join select_mode size) = 0%nat /\
  count is_CoTaskMemFree (trace_of os path_join select_mode size) = 0%nat.
Proof.
  intros Hmode. unfold trace_of.
  destruct (Z.lt_ge_cases size 0) as [Hneg|Hpos].
  { rewrite run_negative by exact Hneg. repeat split. }
  destruct (mode_cases select_mode) as [Hfolder|[Hfile|Hinvalid]].
  - contradiction.
  - rewrite run_files by assumption.
    destruct (negb (dialog_flag os select_mode size =? 0)); repeat split.
  - rewrite run_invalid by assumption. repeat split.
Qed.



(** C6.  In ['folder'] mode, when the dialog returns an item identifier that
    is not null and [SHGetPathFromIDList] leaves the path, ended by a null,
    in the buffer, [select_items] returns the list of that one path; the
    identifier is freed by exactly one call of [CoTaskMemFree], made after
    the path was read and before the return.  With the path
    ["C:\SelectedFolder"] the result is ["C:\SelectedFolder"]. *)
Theorem folder_success_returns_path :
  (forall (os : OS) (path_join : wstr -> wstr -> wstr) (size : Z)
          (path rest : wstr),
      0 <= size ->
      browse_pidl os size <> 0 ->
      nul_free path ->
      resolve_buffer os size = path ++ NUL :: rest ->
      run (select_items os path_join "folder" size) =
      (Return [path],
       [call_CoInitialize; call_SHBrowseForFolderW bi_folder;
        call_SHGetPathFromIDListW (browse_pidl os size);
        call_CoTaskMemFree (browse_pidl os size); call_CoUninitialize])
      /\ count is_CoTaskMemFree (trace_of os path_join "folder" size) = 1%nat)
  /\
  run (select_items
         (os_confirming_folder 4096 (str "SelectedFolder")
            (str "C:\SelectedFolder"))
         ntpath.join "folder" 8192) =
  (Return [str "C:\SelectedFolder"],
   [call_CoInitialize; call_SHBrowseForFolderW bi_folder;
    call_SHGetPathFromIDListW 4096; call_CoTaskMemFree 4096;
    call_CoUninitialize]).
Proof.
  split.
  - intros os path_join size path rest H Hpidl Hfree Hbuf.
    unfold trace_of. rewrite run_folder by exact H.
    apply Z.eqb_neq in Hpidl. rewrite Hpidl. cbn [negb snd].
    rewrite Hbuf, until_nul_app by exact Hfree.
    split; reflexivity.
  - vm_compute. reflexivity.
Qed.

Lemma folder_success_returns_path_witness :
  browse_pidl (os_confirming_folder 4096 (str "SelectedFolder")
                 (str "C:\SelectedFolder")) 32 <> 0 /\
  result_of (os_confirming_folder 4096 (str "SelectedFolder")
               (str "C:\SelectedFolder")) ntpath.join "folder" 32 =
  Return [str "C:\SelectedFolder"] /\
  count is_CoTaskMemFree
    (trace_of (os_confirming_folder 4096 (str "SelectedFolder")
                 (str "C:\SelectedFolder")) ntpath.join "folder" 32) = 1%nat.
Proof.
  assert (Hpidl : browse_pidl (os_confirming_folder 4096 (str "SelectedFolder")
                                 (str "C:\SelectedFolder")) 32 <> 0)
    by (vm_compute; discriminate).
  assert (Hsize : 0 <= 32) by lia.
  assert (Hfree : nul_free (str "C:\SelectedFolder"))
    by (apply str_token; reflexivity).
  assert (Hbuf : resolve_buffer
                   (os_confirming_folder 4096 (str "SelectedFolder")
                      (str "C:\SelectedFolder")) 32 =
                 str "C:\SelectedFolder" ++ NUL :: repeat NUL 14)
    by (vm_compute; reflexivity).
  destruct (proj1 folder_success_returns_path
              (os_confirming_folder 4096 (str "SelectedFolder")
                 (str "C:\SelectedFolder"))
              ntpath.join 32 (str "C:\SelectedFolder") (repeat NUL 14)
              Hsize Hpidl Hfree Hbuf) as [Hrun Hcount].
  split; [exact Hpidl|]. split; [|exact Hcount].
  unfold result_of. rewrite Hrun. reflexivity.
Defined.



(** C10.  The buffer is allocated before the mode is looked at: for every
    [select_mode], valid or not, and every negative [buffer_size],
    [select_items] raises the error of the allocation ([ValueError] about
    the array length, or [OverflowError] when the size is below the index
    type), which is not the error of an invalid mode; and the call takes no
    step at all: no library is loaded, no dialog is opened, nothing is
    printed. *)
Theorem negative_size_fails_in_allocation :
  forall (m : Machine) (os : OS) (path_join : wstr -> wstr -> wstr)
         (select_mode : string) (size : Z),
    size < 0 ->
    result_on m os path_join select_mode size =
      Raise (negative_size_error m size) /\
    steps_on m os path_join select_mode size = [] /\
    trace_on m os path_join select_mode size = [] /\
    result_on m os path_join select_mode size <>
      Raise (ValueError invalid_mode_message).
Proof.
  intros m os path_join select_mode size H.
  pose proof (run_log_refused m os path_join select_mode size _
                (negative_allocation_error m size H)) as Hlog.
  unfold result_on, trace_on, steps_on, run. rewrite Hlog. cbn [fst snd].
  repeat split.
  unfold negative_size_error.
  destruct (size <? - PY_SSIZE_T_MAX m - 1); intros E; injection E as E;
    discriminate E.
Qed.

Lemma negative_size_fails_in_allocation_witness :
  result_on (machine64 (2 ^ 20)) os_cancelling (@app wchar) "invalid" (-1) =
    Raise (ValueError "Array length must be >= 0, not -1") /\
  result_on (machine64 (2 ^ 20)) os_cancelling (@app wchar) "folder"
    (- 2 ^ 63 - 1) =
    Raise (OverflowError "cannot fit 'int' into an index-sized integer").
Proof.
  assert (Hneg : -1 < 0) by lia.
  assert (Hlow : - 2 ^ 63 - 1 < 0) by lia.
  split.
  - exact (proj1 (negative_size_fails_in_allocation
                    (machine64 (2 ^ 20)) os_cancelling (@app wchar)
                    "invalid" (-1) Hneg)).
  - exact (proj1 (negative_size_fails_in_allocation
                    (machine64 (2 ^ 20)) os_cancelling (@app wchar)
                    "folder" (- 2 ^ 63 - 1) Hlow)).
Defined.

(** * Further properties of [select_items] *)

(** ** The split and the tokens *)

Lemma split_pieces_nul_free (s : wstr) : Forall nul_free (split NUL s).
Proof.
  induction s as [|c s IH]; simpl.
  - repeat constructor.
  - destruct (N.eqb_spec c NUL) as [->|Hc].
    + constructor; [constructor|exact IH].
    + destruct (split NUL s) as [|t ts].
      * repeat constructor. exact Hc.
      * inversion IH; subst. constructor; [|assumption].
        constructor; assumption.
Qed.

(** X1.  [buffer[:].split("\0")] loses nothing: joining the pieces with the
    null gives the buffer back, no piece has a null in it, and there is one
    piece more than there are nulls in the buffer. *)
Theorem split_round_trip :
  forall s : wstr,
    join_with NUL (split NUL s) = s /\
    Forall nul_free (split NUL s) /\
    List.length (split NUL s) = S (count_occ N.eq_dec s NUL).
Proof.
  intros s. split; [|split; [apply split_pieces_nul_free|]].
  - induction s as [|c s IH]; [reflexivity|]. simpl.
    destruct (N.eqb_spec c NUL) as [->|Hc].
    + destruct (split NUL s) as [|t ts] eqn:E.
      * exfalso. exact (split_not_nil _ _ E).
      * cbn [join_with app]. f_equal. exact IH.
    + destruct (split NUL s) as [|t ts] eqn:E.
      * exfalso. exact (split_not_nil _ _ E).
      * destruct ts as [|t' ts]; cbn [join_with app] in *;
          rewrite <- IH; reflexivity.
  - induction s as [|c s IH]; [reflexivity|]. simpl.
    destruct (N.eqb_spec c NUL) as [->|Hc].
    + destruct (N.eq_dec NUL NUL) as [_|Hne]; [|contradiction].
      simpl. rewrite IH. reflexivity.
    + destruct (N.eq_dec c NUL) as [E|_]; [contradiction|].
      destruct (split NUL s) as [|t ts] eqn:E.
      * exfalso. exact (split_not_nil _ _ E).
      * exact IH.
Qed.

(** X2.  The pieces the code keeps ([if item]) are the null-separated
    non-empty tokens of the buffer, in buffer order: a list is what the
    buffer holds exactly when it is what the code keeps, and every piece
    kept is a token. *)
Theorem kept_pieces_are_the_tokens :
  forall (s : wstr) (ts : list wstr),
    (holds_tokens s ts <-> filter truthy (split NUL s) = ts) /\
    Forall token (filter truthy (split NUL s)).
Proof.
  intros s ts. split.
  - split; [apply tokens_sound|]. intros <-. apply tokens_complete.
  - apply Forall_forall. intros t Ht. apply filter_In in Ht.
    destruct Ht as [Hin Htruthy]. split.
    + destruct t; [discriminate|discriminate].
    + pose proof (split_pieces_nul_free s) as Hfree.
      rewrite Forall_forall in Hfree. apply Hfree. exact Hin.
Qed.

(** ** The result *)

(** X3.  In ['file'] and ['multi-files'] modes the empty list means that the
    dialog returned a false flag, and nothing else: a successful dialog
    gives an exception or a list that is not empty. *)
Theorem file_result_empty_iff_no_selection :
  forall (os : OS) (path_join : wstr -> wstr -> wstr)
         (select_mode : string) (size : Z),
    0 <= size ->
    file_mode select_mode ->
    (result_of os path_join select_mode size = Return [] <->
     dialog_flag os select_mode size = 0).
Proof.
  intros os path_join select_mode size H Hmode. unfold result_of.
  destruct (Z.eq_dec (dialog_flag os select_mode size) 0) as [E|Hflag].
  - rewrite run_files by assumption. rewrite E. cbn [Z.eqb negb fst]. tauto.
  - rewrite run_files_success by assumption. cbn [fst].
    split; [|contradiction]. intros Hres. exfalso.
    destruct (filter truthy (split NUL (dialog_buffer os select_mode size)))
      as [|d [|f fs]]; discriminate Hres.
Qed.

Lemma file_result_empty_iff_no_selection_witness :
  result_of os_cancelling ntpath.join "file" 16 = Return [] /\
  dialog_flag (os_confirming_files buffer_single) "file" 16 <> 0.
Proof.
  assert (Hsize : 0 <= 16) by lia.
  assert (Hfile : file_mode "file") by (left; reflexivity).
  split.
  - apply (file_result_empty_iff_no_selection
             os_cancelling ntpath.join "file" 16 Hsize Hfile).
    reflexivity.
  - intros Hflag.
    apply (file_result_empty_iff_no_selection
             (os_confirming_files buffer_single) ntpath.join "file" 16
             Hsize Hfile) in Hflag.
    vm_compute in Hflag. discriminate Hflag.
Defined.



(** X5.  The parsing does not look at the mode: in ['file'] mode too, a
    buffer that holds more than one token is read as a directory followed
    by file names, and the call returns one joined path for each token
    after the first. *)
Theorem file_mode_joins_several_tokens :
  forall (os : OS) (path_join : wstr -> wstr -> wstr) (size : Z)
         (d f : wstr) (fs : list wstr),
    0 <= size ->
    dialog_flag os "file" size <> 0 ->
    holds_tokens (dialog_buffer os "file" size) (d :: f :: fs) ->
    result_of os path_join "file" size =
      Return (map (path_join d) (f :: fs)) /\
    (exists items,
        result_of os path_join "file" size = Return items /\
        List.length items = S (List.length fs)).
Proof.
  intros os path_join size d f fs H Hflag Htok. unfold result_of.
  rewrite run_files_success; [|assumption|left; reflexivity|assumption].
  rewrite (tokens_sound _ _ Htok). cbn [fst].
  split; [reflexivity|].
  eexists. split; [reflexivity|].
  cbn [map List.length]. rewrite length_map. reflexivity.
Qed.

Lemma file_mode_joins_several_tokens_witness :
  result_of (os_confirming_files buffer_multi) ntpath.join "file" 32 =
  Return [str "C:\Dir\a.txt"; str "C:\Dir\b.txt"].
Proof.
  assert (Hsize : 0 <= 32) by lia.
  assert (Hflag : dialog_flag (os_confirming_files buffer_multi) "file" 32
                  <> 0) by (vm_compute; discriminate).
  assert (Htok : holds_tokens
                   (dialog_buffer (os_confirming_files buffer_multi)
                      "file" 32)
                   [str "C:\Dir"; str "a.txt"; str "b.txt"])
    by (apply tokens_iff; vm_compute; reflexivity).
  exact (proj1 (file_mode_joins_several_tokens
                  (os_confirming_files buffer_multi) ntpath.join 32
                  (str "C:\Dir") (str "a.txt") [str "b.txt"]
                  Hsize Hflag Htok)).
Defined.

(** X6.  With a buffer of size 0, [buffer[:]] is the empty string whatever
    the dialogs do: a file dialog that reports success makes the call raise
    an index error, and a folder dialog that returns an identifier makes it
    return the list of the empty string. *)
Theorem zero_size_buffer :
  forall (os : OS) (path_join : wstr -> wstr -> wstr),
    (forall select_mode,
        file_mode select_mode ->
        dialog_flag os select_mode 0 <> 0 ->
        result_of os path_join select_mode 0 =
        Raise (IndexError "list index out of range")) /\
    (browse_pidl os 0 <> 0 ->
     result_of os path_join "folder" 0 = Return [[]]).
Proof.
  intros os path_join. unfold result_of. split.
  - intros select_mode Hmode Hflag.
    rewrite run_files_success; [|lia|assumption|assumption].
    unfold dialog_buffer. cbn [Z.to_nat refit firstn Nat.sub repeat app].
    reflexivity.
  - intros Hpidl. rewrite run_folder by lia.
    apply Z.eqb_neq in Hpidl. rewrite Hpidl. cbn [negb fst].
    unfold resolve_buffer. cbn [Z.to_nat refit firstn Nat.sub repeat app].
    reflexivity.
Qed.

Lemma zero_size_buffer_witness :
  result_of (os_confirming_files buffer_single) ntpath.join "file" 0 =
    Raise (IndexError "list index out of range") /\
  result_of (os_confirming_folder 4096 (str "SelectedFolder")
               (str "C:\SelectedFolder")) ntpath.join "folder" 0 =
    Return [[]].
Proof.
  split.
  - apply (proj1 (zero_size_buffer (os_confirming_files buffer_single)
                    ntpath.join) "file").
    + left; reflexivity.
    + vm_compute; discriminate.
  - apply (proj2 (zero_size_buffer
                    (os_confirming_folder 4096 (str "SelectedFolder")
                       (str "C:\SelectedFolder")) ntpath.join)).
    vm_compute; discriminate.
Defined.





(** ** The calls *)

(** X8.  A call opens at most one dialog and never retries: exactly one
    when the allocation of the buffer succeeds and the mode is valid, none
    when the allocation is refused or the mode is invalid. *)
Theorem one_dialog_per_call :
  forall (m : Machine) (os : OS) (path_join : wstr -> wstr -> wstr)
         (select_mode : string) (size : Z),
    (allocates m size -> valid_mode select_mode ->
     count is_dialog (trace_on m os path_join select_mode size) = 1%nat) /\
    (~ allocates m size \/ ~ valid_mode select_mode ->
     count is_dialog (trace_on m os path_join select_mode size) = 0%nat).
Proof.
  intros m os path_join select_mode size. unfold trace_on. split.
  - intros Halloc Hvalid. rewrite run_on_allocated by exact Halloc.
    destruct Halloc as [[H _] _]. destruct Hvalid as [->|Hmode].
    + rewrite run_folder by exact H.
      destruct (negb (browse_pidl os size =? 0)); reflexivity.
    + rewrite run_files by assumption.
      destruct (negb (dialog_flag os select_mode size =? 0)); reflexivity.
  - intros Hbad.
    destruct (allocation_cases m size) as [Halloc|[e He]].
    + destruct Hbad as [Hno|Hmode]; [contradiction|].
      rewrite run_on_allocated by exact Halloc.
      rewrite run_invalid; [reflexivity|apply Halloc|exact Hmode].
    + unfold run. rewrite (run_log_refused _ _ _ _ _ _ He). reflexivity.
Qed.

Lemma one_dialog_per_call_witness :
  count is_dialog
    (trace_on (machine64 (2 ^ 20)) (os_confirming_files buffer_multi)
       (@app wchar) "multi-files" 32) = 1%nat /\
  count is_dialog
    (trace_on (machine64 (2 ^ 20)) os_cancelling (@app wchar) "folder"
       (2 ^ 63)) = 0%nat /\
  count is_dialog
    (trace_on (machine64 16) os_cancelling (@app wchar) "file" 32) = 0%nat.
Proof.
  split; [|split].
  - apply (proj1 (one_dialog_per_call (machine64 (2 ^ 20))
                    (os_confirming_files buffer_multi) (@app wchar)
                    "multi-files" 32)).
    + split; [split; [lia|vm_compute; discriminate]|reflexivity].
    + right; right; reflexivity.
  - apply (proj2 (one_dialog_per_call (machine64 (2 ^ 20)) os_cancelling
                    (@app wchar) "folder" (2 ^ 63))).
    left. intros [[_ Hhi] _]. vm_compute in Hhi. apply Hhi. reflexivity.
  - apply (proj2 (one_dialog_per_call (machine64 16) os_cancelling
                    (@app wchar) "file" 32)).
    left. intros [_ Hmem]. discriminate Hmem.
Defined.

Lemma messages_differ (error_code : Z) :
  error_message error_code <> canceled_message.
Proof. unfold error_message, canceled_message. discriminate. Qed.

(** X9.  [CommDlgExtendedError] is called, and a line is printed, exactly
    when a file dialog returned a false flag; then both happen once.  The
    line is ["Dialog canceled."] exactly when the code read is zero, and
    otherwise the error line with that code. *)
Theorem diagnostic_only_after_false_flag :
  forall (os : OS) (path_join : wstr -> wstr -> wstr)
         (select_mode : string) (size : Z),
    count is_print (trace_of os path_join select_mode size) =
    count is_CommDlgExtendedError (trace_of os path_join select_mode size) /\
    (count is_print (trace_of os path_join select_mode size) <= 1)%nat /\
    (count is_print (trace_of os path_join select_mode size) = 1%nat <->
     0 <= size /\ file_mode select_mode /\
     dialog_flag os select_mode size = 0) /\
    (forall msg,
        In (print msg) (trace_of os path_join select_mode size) ->
        (msg = canceled_message <-> extended_error os = 0) /\
        (extended_error os <> 0 ->
         msg = error_message (extended_error os))).
Proof.
  intros os path_join select_mode size. unfold trace_of.
  destruct (Z.lt_ge_cases size 0) as [Hneg|Hpos].
  { rewrite run_negative by exact Hneg. cbn.
    repeat split; try lia; try contradiction; try discriminate. }
  destruct (mode_cases select_mode) as [->|[Hmode|Hinvalid]].
  - rewrite run_folder by exact Hpos.
    assert (Hnot : ~ file_mode "folder") by (intros [E|E]; discriminate E).
    destruct (negb (browse_pidl os size =? 0)); cbn;
      (split; [reflexivity|]); (split; [lia|]);
      (split; [split; [discriminate|tauto]|]);
      intros msg Hin;
      repeat (destruct Hin as [Hin|Hin]; [discriminate Hin|]);
      contradiction.
  - rewrite run_files by assumption.
    destruct (Z.eqb_spec (dialog_flag os select_mode size) 0) as [E|Hflag];
      cbn [negb snd].
    + cbn. split; [reflexivity|]. split; [lia|].
      split; [tauto|].
      intros msg [Hin|[Hin|[Hin|[]]]]; try discriminate Hin.
      injection Hin as <-. unfold diagnostic.
      destruct (Z.eqb_spec (extended_error os) 0) as [E0|Hcode].
      * split; [tauto|contradiction].
      * split; [|reflexivity].
        split; [|contradiction].
        intros Hmsg. exfalso. exact (messages_differ _ Hmsg).
    + cbn. split; [reflexivity|]. split; [lia|].
      split; [split; [discriminate|tauto]|].
      intros msg [Hin|[]]. discriminate Hin.
  - rewrite run_invalid by assumption. cbn.
    assert (Hnot : ~ file_mode select_mode)
      by (intros Hf; apply Hinvalid; right; exact Hf).
    split; [reflexivity|]. split; [lia|].
    split; [split; [discriminate|tauto]|]. contradiction.
Qed.

(** X10.  The only pointer ever freed is the identifier the folder dialog
    returned, it is not null, and it is freed once: no free happens on
    cancellation, in another mode or before the dialog. *)
Theorem only_the_identifier_is_freed :
  forall (os : OS) (path_join : wstr -> wstr -> wstr)
         (select_mode : string) (size : Z),
    (count is_CoTaskMemFree (trace_of os path_join select_mode size)
     <= 1)%nat /\
    (forall p,
        In (call_CoTaskMemFree p) (trace_of os path_join select_mode size) ->
        select_mode = "folder" /\ 0 <= size /\
        p = browse_pidl os size /\ p <> 0).
Proof.
  intros os path_join select_mode size.
  destruct (string_dec select_mode "folder") as [->|Hmode].
  - unfold trace_of.
    destruct (Z.lt_ge_cases size 0) as [Hneg|Hpos].
    { rewrite run_negative by exact Hneg. cbn. split; [lia|contradiction]. }
    rewrite run_folder by exact Hpos.
    destruct (Z.eqb_spec (browse_pidl os size) 0) as [E|Hpidl]; cbn.
    + split; [lia|].
      intros p Hin.
      repeat (destruct Hin as [Hin|Hin]; [discriminate Hin|]).
      contradiction.
    + split; [lia|].
      intros p [Hin|[Hin|[Hin|[Hin|[Hin|[]]]]]]; try discriminate Hin.
      injection Hin as <-. repeat split; assumption.
  - destruct (no_com_outside_folder os path_join select_mode size Hmode)
      as [_ [_ Hfree]].
    split; [rewrite Hfree; lia|].
    intros p Hin. exfalso.
    assert (Hin' : In (call_CoTaskMemFree p)
                     (filter is_CoTaskMemFree
                        (trace_of os path_join select_mode size)))
      by (apply filter_In; split; [exact Hin|reflexivity]).
    unfold count in Hfree.
    destruct (filter is_CoTaskMemFree
                (trace_of os path_join select_mode size));
      [exact Hin'|discriminate Hfree].
Qed.

(** X11.  The capacity the file dialog is told ([nMaxFile]) is the buffer
    size modulo 2^32, so it never exceeds the number of characters that
    were allocated, and it is the buffer size itself below 2^32. *)
Theorem capacity_within_buffer :
  forall (os : OS) (path_join : wstr -> wstr -> wstr)
         (select_mode : string) (size : Z) (ofn : OPENFILENAME),
    0 <= size ->
    In (call_GetOpenFileNameW ofn) (trace_of os path_join select_mode size) ->
    nMaxFile ofn = size mod 2 ^ 32 /\
    0 <= nMaxFile ofn <= Z.of_nat (List.length (fresh_buffer size)) /\
    (size < 2 ^ 32 -> nMaxFile ofn = size).
Proof.
  intros os path_join select_mode size ofn H Hin.
  assert (Hofn : nMaxFile ofn = DWORD size).
  { unfold trace_of in Hin.
    destruct (mode_cases select_mode) as [->|[Hmode|Hinvalid]].
    - rewrite run_folder in Hin by exact H.
      destruct (negb (browse_pidl os size =? 0)); cbn in Hin;
        repeat (destruct Hin as [Hin|Hin]; [discriminate Hin|]);
        contradiction.
    - rewrite run_files in Hin by assumption.
      assert (Hcfg : nMaxFile (ofn_of os select_mode size) = DWORD size)
        by (destruct Hmode as [-> | ->]; reflexivity).
      destruct (negb (dialog_flag os select_mode size =? 0)); cbn in Hin;
        (destruct Hin as [Hin|Hin];
         [injection Hin as <-; exact Hcfg|]);
        repeat (destruct Hin as [Hin|Hin]; [discriminate Hin|]);
        contradiction.
    - rewrite run_invalid in Hin by assumption. contradiction. }
  rewrite Hofn, fresh_buffer_length. unfold DWORD.
  rewrite Z2Nat.id by exact H.
  assert (Hpow : 0 < 2 ^ 32) by lia.
  pose proof (Z.mod_pos_bound size (2 ^ 32) Hpow) as Hbound.
  pose proof (Z.mod_le size (2 ^ 32) H Hpow) as Hle.
  split; [reflexivity|]. split; [lia|].
  intros Hsmall. apply Z.mod_small. lia.
Qed.

Lemma capacity_within_buffer_witness :
  nMaxFile (ofn_multi os_cancelling (2 ^ 32 + 5)) = 5 /\
  nMaxFile (ofn_file os_cancelling 8192) = 8192.
Proof.
  assert (Hbig : 0 <= 2 ^ 32 + 5) by lia.
  assert (Hsmall : 0 <= 8192) by lia.
  assert (Hin1 : In (call_GetOpenFileNameW
                       (ofn_multi os_cancelling (2 ^ 32 + 5)))
                   (trace_of os_cancelling ntpath.join "multi-files"
                      (2 ^ 32 + 5))).
  { unfold trace_of.
    rewrite run_files; [|exact Hbig|right; reflexivity].
    left. reflexivity. }
  assert (Hin2 : In (call_GetOpenFileNameW (ofn_file os_cancelling 8192))
                   (trace_of os_cancelling ntpath.join "file" 8192)).
  { unfold trace_of.
    rewrite run_files; [|exact Hsmall|left; reflexivity].
    left. reflexivity. }
  split.
  - rewrite (proj1 (capacity_within_buffer os_cancelling ntpath.join
                      "multi-files" (2 ^ 32 + 5) _ Hbig Hin1)).
    reflexivity.
  - apply (proj2 (proj2 (capacity_within_buffer os_cancelling ntpath.join
                           "file" 8192 _ Hsmall Hin2))).
    lia.
Defined.

(** X12.  The file dialog is always opened with the filter of line 117, a
    title and the flags [OFN_EXPLORER] and [OFN_FILEMUSTEXIST] of the
    source; the flag [OFN_ALLOWMULTISELECT] is set exactly in
    ['multi-files'] mode, so ['file'] mode asks for a single selection. *)
Theorem multiselect_only_in_multi_files :
  forall (os : OS) (path_join : wstr -> wstr -> wstr)
         (select_mode : string) (size : Z) (ofn : OPENFILENAME),
    In (call_GetOpenFileNameW ofn) (trace_of os path_join select_mode size) ->
    lpstrFilter ofn = filter_text /\
    lpstrTitle ofn <> None /\
    Z.land (Flags ofn) OFN_EXPLORER = OFN_EXPLORER /\
    Z.land (Flags ofn) OFN_FILEMUSTEXIST = OFN_FILEMUSTEXIST /\
    (Z.land (Flags ofn) OFN_ALLOWMULTISELECT = OFN_ALLOWMULTISELECT <->
     select_mode = "multi-files") /\
    (Z.land (Flags ofn) OFN_ALLOWMULTISELECT = 0 <-> select_mode = "file").
Proof.
  intros os path_join select_mode size ofn Hin. unfold trace_of in Hin.
  destruct (Z.lt_ge_cases size 0) as [Hneg|Hpos].
  { rewrite run_negative in Hin by exact Hneg. contradiction. }
  destruct (mode_cases select_mode) as [->|[Hmode|Hinvalid]].
  - rewrite run_folder in Hin by exact Hpos.
    destruct (negb (browse_pidl os size =? 0)); cbn in Hin;
      repeat (destruct Hin as [Hin|Hin]; [discriminate Hin|]);
      contradiction.
  - rewrite run_files in Hin by assumption.
    assert (Hofn : ofn = ofn_of os select_mode size).
    { destruct (negb (dialog_flag os select_mode size =? 0)); cbn in Hin;
        (destruct Hin as [Hin|Hin]; [injection Hin as <-; reflexivity|]);
        repeat (destruct Hin as [Hin|Hin]; [discriminate Hin|]);
        contradiction. }
    subst ofn.
    destruct Hmode as [-> | ->]; cbn;
      (split; [reflexivity|]); (split; [discriminate|]);
      (split; [reflexivity|]); (split; [reflexivity|]);
      split; split; intros E; try reflexivity; discriminate E.
  - rewrite run_invalid in Hin by assumption. contradiction.
Qed.

Lemma multiselect_only_in_multi_files_witness :
  Z.land (Flags (ofn_file os_cancelling 8192)) OFN_ALLOWMULTISELECT = 0 /\
  Z.land (Flags (ofn_multi os_cancelling 8192)) OFN_ALLOWMULTISELECT =
    OFN_ALLOWMULTISELECT.
Proof.
  assert (Hsize : 0 <= 8192) by lia.
  assert (Hin1 : In (call_GetOpenFileNameW (ofn_file os_cancelling 8192))
                   (trace_of os_cancelling ntpath.join "file" 8192)).
  { unfold trace_of.
    rewrite run_files; [|exact Hsize|left; reflexivity].
    left. reflexivity. }
  assert (Hin2 : In (call_GetOpenFileNameW (ofn_multi os_cancelling 8192))
                   (trace_of os_cancelling ntpath.join "multi-files" 8192)).
  { unfold trace_of.
    rewrite run_files; [|exact Hsize|right; reflexivity].
    left. reflexivity. }
  split.
  - apply (multiselect_only_in_multi_files os_cancelling ntpath.join
             "file" 8192 _ Hin1).
    reflexivity.
  - apply (multiselect_only_in_multi_files os_cancelling ntpath.join
             "multi-files" 8192 _ Hin2).
    reflexivity.
Defined.

(** ** The returned strings *)

Lemma kept_are_tokens (s : wstr) : Forall token (filter truthy (split NUL s)).
Proof.
  apply Forall_forall. intros t Ht. apply filter_In in Ht.
  destruct Ht as [Hin Htruthy]. split.
  - destruct t; [discriminate|discriminate].
  - pose proof (split_pieces_nul_free s) as Hfree.
    rewrite Forall_forall in Hfree. apply Hfree. exact Hin.
Qed.

(** X13.  No path that ['folder'] mode returns has a null character in it.
    In ['file'] and ['multi-files'] modes, with a join that keeps nulls out
    and gives a non-empty path for a non-empty file name (as [os.path.join]
    does), every returned path is non-empty and free of nulls. *)
Theorem returned_paths_are_nul_free :
  forall (m : Machine) (os : OS) (path_join : wstr -> wstr -> wstr)
         (select_mode : string) (size : Z) (items : list wstr),
    result_on m os path_join select_mode size = Return items ->
    (select_mode = "folder" -> Forall nul_free items) /\
    ((forall a b, nul_free a -> nul_free b -> nul_free (path_join a b)) ->
     (forall a b, b <> [] -> path_join a b <> []) ->
     file_mode select_mode -> Forall token items).
Proof.
  intros m os path_join select_mode size items Hres. unfold result_on in Hres.
  destruct (allocation_cases m size) as [Halloc|[e He]].
  2:{ unfold run in Hres. rewrite (run_log_refused _ _ _ _ _ _ He) in Hres.
      discriminate Hres. }
  rewrite run_on_allocated in Hres by exact Halloc.
  destruct Halloc as [[Hpos _] _]. split.
  - intros ->. rewrite run_folder in Hres by exact Hpos.
    destruct (negb (browse_pidl os size =? 0)); cbn [fst] in Hres;
      injection Hres as <-; [|constructor].
    constructor; [|constructor].
    destruct (split_head (resolve_buffer os size)) as [rest E].
    pose proof (split_pieces_nul_free (resolve_buffer os size)) as Hfree.
    rewrite E in Hfree. inversion Hfree; assumption.
  - intros Hjoin_free Hjoin_some Hmode.
    rewrite run_files in Hres by assumption.
    destruct (negb (dialog_flag os select_mode size =? 0)); cbn [fst] in Hres;
      [|injection Hres as <-; constructor].
    pose proof (kept_are_tokens (dialog_buffer os select_mode size)) as Hall.
    destruct (filter truthy (split NUL (dialog_buffer os select_mode size)))
      as [|d [|f fs]]; [discriminate Hres| |]; injection Hres as <-.
    + exact Hall.
    + inversion Hall as [|? ? Hd Hrest]; subst.
      apply Forall_forall. intros item Hitem.
      change (In item (map (path_join d) (f :: fs))) in Hitem.
      apply in_map_iff in Hitem. destruct Hitem as [x [<- Hx]].
      rewrite Forall_forall in Hrest. destruct (Hrest x Hx) as [Hne Hfree].
      split.
      * apply Hjoin_some. exact Hne.
      * apply Hjoin_free; [apply Hd|exact Hfree].
Qed.

Lemma returned_paths_are_nul_free_witness :
  Forall token [str "C:\Dir" ++ [92%N] ++ str "a.txt";
                str "C:\Dir" ++ [92%N] ++ str "b.txt"].
Proof.
  assert (Hres : result_on (machine64 (2 ^ 20))
                   (os_confirming_files buffer_multi)
                   (fun d f => d ++ [92%N] ++ f) "multi-files" 32 =
                 Return [str "C:\Dir" ++ [92%N] ++ str "a.txt";
                         str "C:\Dir" ++ [92%N] ++ str "b.txt"])
    by (vm_compute; reflexivity).
  apply (proj2 (returned_paths_are_nul_free
                  (machine64 (2 ^ 20)) (os_confirming_files buffer_multi)
                  (fun d f => d ++ [92%N] ++ f) "multi-files" 32 _ Hres)).
  - intros a b Ha Hb. apply Forall_app. split; [exact Ha|].
    apply Forall_app. split; [|exact Hb].
    constructor; [discriminate|constructor].
  - intros a b _. destruct a; discriminate.
  - right. reflexivity.
Defined.

(** ** The exceptions *)

Lemma no_token_all_nul (s : wstr) (ts : list wstr) :
  holds_tokens s ts -> ts = [] -> Forall (fun c => c = NUL) s.
Proof.
  induction 1 as [|s ts _ IH|t Ht|t s ts Ht _ IH]; intros E.
  - constructor.
  - constructor; [reflexivity|apply IH; exact E].
  - discriminate E.
  - discriminate E.
Qed.

(** X14.  Where the three libraries load, the call raises in exactly these
    situations: the allocation of the buffer is refused (the error of the
    allocation: a size outside the index type, a negative size, an array too
    large, no memory); the allocation succeeds and the mode is none of the
    three (the invalid-mode error); the mode is ['file'] or ['multi-files'],
    the dialog reports success and the buffer read has nulls only (an index
    error).  In every other situation it returns a list. *)
Theorem when_the_call_raises :
  forall (m : Machine) (os : OS) (path_join : wstr -> wstr -> wstr)
         (select_mode : string) (size : Z) (e : exn),
    result_on m os path_join select_mode size = Raise e <->
    allocation_error m size = Some e \/
    (allocates m size /\ ~ valid_mode select_mode /\
     e = ValueError invalid_mode_message) \/
    (allocates m size /\ file_mode select_mode /\
     dialog_flag os select_mode size <> 0 /\
     Forall (fun c => c = NUL) (dialog_buffer os select_mode size) /\
     e = IndexError "list index out of range").
Proof.
  intros m os path_join select_mode size e. unfold result_on.
  destruct (allocation_cases m size) as [Halloc|[e' He]].
  2:{ unfold run. rewrite (run_log_refused _ _ _ _ _ _ He). cbn [fst].
      assert (Hno : ~ allocates m size).
      { intros H. apply allocates_no_error in H. congruence. }
      split.
      - intros E. injection E as <-. left. exact He.
      - intros [E|[[H _]|[H _]]]; [congruence|contradiction|contradiction]. }
  rewrite run_on_allocated by exact Halloc.
  pose proof (proj1 (allocates_no_error m size) Halloc) as Hnone.
  assert (Hpos : 0 <= size) by apply Halloc.
  destruct (mode_cases select_mode) as [->|[Hmode|Hinvalid]].
  - rewrite run_folder by exact Hpos.
    assert (Hvalid : valid_mode "folder") by (left; reflexivity).
    assert (Hnot : ~ file_mode "folder") by (intros [E|E]; discriminate E).
    split.
    + intros E. destruct (negb (browse_pidl os size =? 0)); discriminate E.
    + intros [E|[[_ [Hbad _]]|[_ [Hfile _]]]];
        [congruence|contradiction|contradiction].
  - assert (Hvalid : valid_mode select_mode) by (right; exact Hmode).
    destruct (Z.eq_dec (dialog_flag os select_mode size) 0) as [E0|Hflag].
    + rewrite run_files by assumption. rewrite E0. cbn [Z.eqb negb fst].
      split; [discriminate|].
      intros [E|[[_ [Hbad _]]|[_ [_ [Hflag _]]]]];
        [congruence|contradiction|contradiction].
    + rewrite run_files_success by assumption. cbn [fst].
      pose proof (tokens_complete (dialog_buffer os select_mode size)) as Htok.
      split.
      * intros E. right; right.
        destruct (filter truthy
                    (split NUL (dialog_buffer os select_mode size)))
          as [|d [|f fs]] eqn:Ekept; try discriminate E.
        injection E as <-.
        repeat split; try assumption; try apply Halloc.
        apply (no_token_all_nul _ _ Htok). reflexivity.
      * intros [E|[[_ [Hbad _]]|[_ [_ [_ [Hnul ->]]]]]];
          [congruence|contradiction|].
        rewrite all_nul_no_token by exact Hnul. reflexivity.
  - rewrite run_invalid by assumption. cbn [fst]. split.
    + intros E. injection E as <-. right; left.
      repeat split; try assumption; apply Halloc.
    + intros [E|[[_ [_ ->]]|[_ [Hfile _]]]];
        [congruence|reflexivity|].
      exfalso. apply Hinvalid. right. exact Hfile.
Qed.
